(** * Refresh of a materialized external table (CETAS) and its column statistics

    A shallow embedding of the notebook
    [Synapse_Materialize_Query_CETAS_And_Generate_Stats.ipynb].

    The notebook is glue code around three external collaborators: a
    serverless SQL engine reached through JDBC, an object store reached through
    [mssparkutils.fs], and a token provider.  The Python functions are embedded
    as computations of a state-and-exception monad over a [world] that holds

    - the engine's catalog and the object store ([Engine.db]),
    - the connection and statement handles that are currently open,
    - the history of external calls, each with its outcome,
    - the lines printed so far, and
    - a fault oracle which decides, from the history and the call about to be
      made, whether that call raises.

    The notebook is embedded from its source.  The collaborators are not part
    of the repository; module [Engine] is the model of them that the
    properties are stated against:
    - SQL text is represented by the syntax tree of the statement it denotes
      ([sql], [query]); [render_sql] gives the text of the statements that
      the code or the catalog query assembles.
    - Identifiers are plain (no bracket quoting); an identifier without a
      schema part resolves to [Engine.default_schema].
    - An object's identity in the catalog views is its (schema, name) pair.
    - The two catalog queries are evaluated as their SQL reads: a filter of
      [sys.external_tables], and an inner join followed by two left joins.
    - A statement that the engine rejects changes nothing.  [DROP EXTERNAL
      TABLE] needs the table and removes it with its columns and statistics,
      not its files; [CREATE EXTERNAL TABLE AS SELECT] needs a free name, a
      known data source and an empty location; [CREATE STATISTICS] needs the
      object, the column and an unused statistics name.
    - [fs.rm] removes what is under the path and returns whether anything was.
    - Closing a statement or a connection does not raise, and neither does
      iterating over a result set that [executeQuery] has returned. *)

From Stdlib Require Import String Ascii List Bool Arith Lia.
Import ListNotations.
Local Open Scope string_scope.
Local Open Scope list_scope.

Set Implicit Arguments.

(* ================================================================= *)
(** ** Python string helpers *)

Module PyStr.

(** [s.split(sep)] for a one-character separator. *)
Fixpoint split (sep : ascii) (s : string) : list string :=
  match s with
  | EmptyString => [EmptyString]
  | String c s' =>
      if Ascii.eqb c sep then EmptyString :: split sep s'
      else match split sep s' with
           | [] => [String c EmptyString]
           | hd :: tl => String c hd :: tl
           end
  end.

(** [l[-1]] on a list of strings. *)
Definition last_item (l : list string) : string := List.last l EmptyString.

(** [s.rstrip(ch)] for a one-character set. *)
Fixpoint rstrip (ch : ascii) (s : string) : string :=
  match s with
  | EmptyString => EmptyString
  | String c s' =>
      match rstrip ch s' with
      | EmptyString => if Ascii.eqb c ch then EmptyString else String c EmptyString
      | r => String c r
      end
  end.

(** [name.split('.')[-1]]: the unqualified part of a table identifier. *)
Definition unqualified (table_name : string) : string :=
  last_item (split "." table_name).

End PyStr.

(* ================================================================= *)
(** ** Configuration and SQL text *)

(** The [CONFIG] dictionary: four string-valued keys. *)
Record config := {
  external_table : string;
  workspace_name : string;
  database_name : string;
  materialized_table_output_path : string
}.

(** What the [SELECT] of the materialization query evaluates to. *)
Record select_result := {
  sel_columns : list string;
  sel_data : string
}.

(** Statements sent through [stmt.execute]. *)
Inductive sql :=
| DropExternalTable (table_name : string)
| CreateExternalTableAsSelect (table_name : string) (location : string)
    (data_source : string) (file_format : string) (select : select_result)
| CreateStatistics (stats_name : string) (schema_name : string)
    (object_name : string) (column_name : string)
| Text (s : string).

(** Queries sent through [stmt.executeQuery]. *)
Inductive query :=
| SelectExternalTablesNamed (name : string)
| SelectCreateStatisticsCommands (table_name : string).

Definition render_sql (s : sql) : option string :=
  match s with
  | DropExternalTable t => Some ("DROP EXTERNAL TABLE " ++ t)%string
  | CreateStatistics st sch obj col =>
      Some ("CREATE STATISTICS [" ++ st ++ "] ON [" ++ sch ++ "].[" ++ obj
            ++ "] ([" ++ col ++ "]) WITH FULLSCAN;")%string
  | Text s => Some s
  | CreateExternalTableAsSelect _ _ _ _ _ => None
  end.

(** The three error kinds of the external collaborators. *)
Inductive exn :=
| ConnectionError (reason : string)
| QueryError (reason : string)
| StorageError (reason : string).

(* ================================================================= *)
(** ** The engine's catalog and the object store *)

Module Engine.

Definition object_id := (string * string)%type.

Definition oid_eqb (a b : object_id) : bool :=
  String.eqb (fst a) (fst b) && String.eqb (snd a) (snd b).

Inductive object_type := ExternalTable | OtherObject.

Definition is_external (t : object_type) : bool :=
  match t with ExternalTable => true | OtherObject => false end.

(** Rows of [sys.objects], [sys.columns], [sys.stats_columns], [sys.stats]. *)
Record object_row := {
  o_schema : string;
  o_name : string;
  o_type : object_type
}.

Definition o_object_id (o : object_row) : object_id := (o_schema o, o_name o).

Record column_row := {
  c_object_id : object_id;
  c_column_id : nat;
  c_name : string
}.

Record stats_column_row := {
  sc_object_id : object_id;
  sc_stats_id : nat;
  sc_column_id : nat
}.

Record stats_row := {
  s_object_id : object_id;
  s_stats_id : nat;
  s_name : string
}.

Record catalog := {
  sys_objects : list object_row;
  sys_columns : list column_row;
  sys_stats_columns : list stats_column_row;
  sys_stats : list stats_row
}.

(** [sys.external_tables] is the view of the objects that are external tables. *)
Definition sys_external_tables (c : catalog) : list object_row :=
  filter (fun o => is_external (o_type o)) (sys_objects c).

Record file := {
  f_path : string;
  f_content : string
}.

Record db := {
  db_catalog : catalog;
  db_files : list file;
  db_data_sources : list (string * string)
}.

Definition default_schema : string := "dbo".

(** Name resolution of a possibly qualified identifier. *)
Definition resolve (ident : string) : object_id :=
  match rev (PyStr.split "." ident) with
  | name :: schema :: _ => (schema, name)
  | name :: [] => (default_schema, name)
  | [] => (default_schema, EmptyString)
  end.

(** *** Relational operators *)

Definition inner_join {A B} (on : A -> B -> bool) (l : list A) (r : list B)
  : list (A * B) :=
  flat_map (fun a => map (pair a) (filter (on a) r)) l.

Definition left_join {A B} (on : A -> B -> bool) (l : list A) (r : list B)
  : list (A * option B) :=
  flat_map (fun a =>
              match filter (on a) r with
              | [] => [(a, None)]
              | m => map (fun b => (a, Some b)) m
              end) l.

(** *** Queries *)

(** [SELECT 1 FROM sys.external_tables WHERE name = '<name>'] *)
Definition external_tables_named (name : string) (c : catalog) : list object_row :=
  filter (fun o => String.eqb (o_name o) name) (sys_external_tables c).

(** The [FROM ... INNER JOIN ... LEFT JOIN ... LEFT JOIN ... WHERE] part of
    [stats_sql]. *)
Definition stats_join (table_name : string) (c : catalog)
  : list (object_row * column_row * option stats_column_row * option stats_row) :=
  let oc := inner_join (fun o col => oid_eqb (o_object_id o) (c_object_id col))
              (sys_objects c) (sys_columns c) in
  let ocs := left_join (fun (p : object_row * column_row) sc =>
                          oid_eqb (sc_object_id sc) (c_object_id (snd p))
                          && Nat.eqb (sc_column_id sc) (c_column_id (snd p)))
               oc (sys_stats_columns c) in
  let ocss := left_join (fun (p : object_row * column_row * option stats_column_row) s =>
                           match snd p with
                           | Some sc => oid_eqb (s_object_id s) (sc_object_id sc)
                                        && Nat.eqb (s_stats_id s) (sc_stats_id sc)
                           | None => false
                           end)
                ocs (sys_stats c) in
  filter (fun r => String.eqb (o_name (fst (fst (fst r)))) table_name) ocss.

(** The [SELECT] list of [stats_sql]: the text of one [CREATE STATISTICS]. *)
Definition cmd_create (o : object_row) (col : column_row) : sql :=
  CreateStatistics ("Stats_" ++ c_name col)%string (o_schema o) (o_name o) (c_name col).

Definition run_query (q : query) (c : catalog) : list sql :=
  match q with
  | SelectExternalTablesNamed name =>
      map (fun _ => Text "1") (external_tables_named name c)
  | SelectCreateStatisticsCommands table_name =>
      map (fun r => cmd_create (fst (fst (fst r))) (snd (fst (fst r))))
        (stats_join table_name c)
  end.

(** *** Statements *)

Definition has_object (id : object_id) (c : catalog) : bool :=
  existsb (fun o => oid_eqb (o_object_id o) id) (sys_objects c).

Definition has_external_table (id : object_id) (c : catalog) : bool :=
  existsb (fun o => oid_eqb (o_object_id o) id) (sys_external_tables c).

(** Removal of an object with everything that hangs off it. *)
Definition remove_object (id : object_id) (c : catalog) : catalog :=
  {| sys_objects := filter (fun o => negb (oid_eqb (o_object_id o) id)) (sys_objects c);
     sys_columns := filter (fun x => negb (oid_eqb (c_object_id x) id)) (sys_columns c);
     sys_stats_columns :=
       filter (fun x => negb (oid_eqb (sc_object_id x) id)) (sys_stats_columns c);
     sys_stats := filter (fun x => negb (oid_eqb (s_object_id x) id)) (sys_stats c) |}.

Fixpoint number_columns (id : object_id) (n : nat) (names : list string)
  : list column_row :=
  match names with
  | [] => []
  | x :: rest =>
      {| c_object_id := id; c_column_id := n; c_name := x |}
        :: number_columns id (S n) rest
  end.

Definition add_external_table (id : object_id) (columns : list string) (c : catalog)
  : catalog :=
  {| sys_objects := sys_objects c
                    ++ [{| o_schema := fst id; o_name := snd id; o_type := ExternalTable |}];
     sys_columns := sys_columns c ++ number_columns id 1 columns;
     sys_stats_columns := sys_stats_columns c;
     sys_stats := sys_stats c |}.

Definition stats_of (id : object_id) (c : catalog) : list stats_row :=
  filter (fun s => oid_eqb (s_object_id s) id) (sys_stats c).

Definition next_stats_id (id : object_id) (c : catalog) : nat :=
  S (list_max (map s_stats_id (stats_of id c))).

Definition find_column (id : object_id) (name : string) (c : catalog)
  : option column_row :=
  find (fun x => oid_eqb (c_object_id x) id && String.eqb (c_name x) name)
    (sys_columns c).

Definition add_statistics (id : object_id) (stats_name : string) (col : column_row)
    (c : catalog) : catalog :=
  let sid := next_stats_id id c in
  {| sys_objects := sys_objects c;
     sys_columns := sys_columns c;
     sys_stats_columns :=
       sys_stats_columns c
       ++ [{| sc_object_id := id; sc_stats_id := sid; sc_column_id := c_column_id col |}];
     sys_stats :=
       sys_stats c ++ [{| s_object_id := id; s_stats_id := sid; s_name := stats_name |}] |}.

(** A folder, written so that it is a prefix of exactly the paths beneath it. *)
Definition directory (path : string) : string :=
  (PyStr.rstrip "/" path ++ "/")%string.

Definition under (folder : string) (f : file) : bool :=
  String.prefix (directory folder) (f_path f).

Definition lookup_data_source (name : string) (d : db) : option string :=
  option_map snd (find (fun p => String.eqb (fst p) name) (db_data_sources d)).

Definition with_catalog (d : db) (c : catalog) : db :=
  {| db_catalog := c; db_files := db_files d; db_data_sources := db_data_sources d |}.

Definition with_files (d : db) (fs : list file) : db :=
  {| db_catalog := db_catalog d; db_files := fs; db_data_sources := db_data_sources d |}.

(** The effect of a statement: the new database, or the engine's rejection.
    A rejected statement leaves the database as it was. *)
Definition run_statement (s : sql) (d : db) : db + exn :=
  match s with
  | DropExternalTable table_name =>
      let id := resolve table_name in
      if has_external_table id (db_catalog d)
      then inl (with_catalog d (remove_object id (db_catalog d)))
      else inr (QueryError "external table does not exist")
  | CreateExternalTableAsSelect table_name location data_source _ select =>
      let id := resolve table_name in
      if has_object id (db_catalog d)
      then inr (QueryError "object already exists")
      else match lookup_data_source data_source d with
           | None => inr (QueryError "data source does not exist")
           | Some root =>
               let folder := (root ++ location)%string in
               if existsb (under folder) (db_files d)
               then inr (QueryError "location already exists")
               else inl {| db_catalog :=
                             add_external_table id (sel_columns select) (db_catalog d);
                           db_files :=
                             db_files d
                             ++ [{| f_path := (directory folder ++ "part-0.parquet")%string;
                                    f_content := sel_data select |}];
                           db_data_sources := db_data_sources d |}
           end
  | CreateStatistics stats_name schema_name object_name column_name =>
      let id := (schema_name, object_name) in
      if has_object id (db_catalog d)
      then match find_column id column_name (db_catalog d) with
           | None => inr (QueryError "column does not exist")
           | Some col =>
               if existsb (fun s => String.eqb (s_name s) stats_name)
                    (stats_of id (db_catalog d))
               then inr (QueryError "statistics already exist")
               else inl (with_catalog d (add_statistics id stats_name col (db_catalog d)))
           end
      else inr (QueryError "object does not exist")
  | Text _ => inr (QueryError "incorrect syntax")
  end.

(** Recursive deletion of everything under [path]: what remains, and
    whether anything was there. *)
Definition remove_path (path : string) (d : db) : db * bool :=
  let gone := filter (under path) (db_files d) in
  let kept := filter (fun f => negb (under path f)) (db_files d) in
  (with_files d kept, negb (Nat.eqb (length gone) 0)).

End Engine.

(* ================================================================= *)
(** ** External calls, their outcomes, and what the notebook prints *)

Definition handle := nat.

Inductive call :=
| GetToken (audience : string)
| GetConnection (jdbc_url : string) (props : list (string * string))
| CreateStatement (conn : handle)
| ExecuteQuery (stmt : handle) (q : query)
| Execute (stmt : handle) (s : sql)
| CloseStatement (stmt : handle)
| CloseConnection (conn : handle)
| FsRm (path : string) (recurse : bool).

Inductive outcome :=
| Returned
| ReturnedText (s : string)
| ReturnedHandle (h : handle)
| ReturnedRows (rows : list sql)
| ReturnedBool (b : bool)
| Raised (e : exn).

Definition event := (call * outcome)%type.

(** One constructor per [print] of the notebook. *)
Inductive message :=
| Dropped (table_name : string)
| DeletedPath (path : string)
| PathNotFound (path : string)
| Created (table_name : string)
| NoStatistics (table_name : string)
| CreatingStatistics (n : nat) (table_name : string)
| Executed (cmd : sql)
| Failed (cmd : sql) (reason : exn)
| StatisticsError (e : exn)
| StatisticsCompleted
| SkippingDrop (table_name : string)
| RefreshError (e : exn)
| RefreshCompleted
| SkippingStatistics.

(* ================================================================= *)
(** ** The world *)

Record world := {
  w_db : Engine.db;
  w_token : string;
  w_next_handle : handle;
  w_connections : list handle;
  w_statements : list handle;
  w_history : list event;       (* newest first *)
  w_log : list message;         (* newest first *)
  w_fault : list event -> call -> option exn
}.

(** The calls made so far and the lines printed so far, oldest first. *)
Definition history (w : world) : list event := rev (w_history w).
Definition printed (w : world) : list message := rev (w_log w).

Definition set_db (d : Engine.db) (w : world) : world :=
  {| w_db := d; w_token := w_token w; w_next_handle := w_next_handle w;
     w_connections := w_connections w; w_statements := w_statements w;
     w_history := w_history w; w_log := w_log w; w_fault := w_fault w |}.

Definition record_event (c : call) (o : outcome) (w : world) : world :=
  {| w_db := w_db w; w_token := w_token w; w_next_handle := w_next_handle w;
     w_connections := w_connections w; w_statements := w_statements w;
     w_history := (c, o) :: w_history w; w_log := w_log w; w_fault := w_fault w |}.

Definition open_connection (w : world) : handle * world :=
  (w_next_handle w,
   {| w_db := w_db w; w_token := w_token w; w_next_handle := S (w_next_handle w);
      w_connections := w_next_handle w :: w_connections w;
      w_statements := w_statements w;
      w_history := w_history w; w_log := w_log w; w_fault := w_fault w |}).

Definition open_statement (w : world) : handle * world :=
  (w_next_handle w,
   {| w_db := w_db w; w_token := w_token w; w_next_handle := S (w_next_handle w);
      w_connections := w_connections w;
      w_statements := w_next_handle w :: w_statements w;
      w_history := w_history w; w_log := w_log w; w_fault := w_fault w |}).

Definition remove_handle (h : handle) (l : list handle) : list handle :=
  filter (fun x => negb (Nat.eqb x h)) l.

Definition release_connection (h : handle) (w : world) : world :=
  {| w_db := w_db w; w_token := w_token w; w_next_handle := w_next_handle w;
     w_connections := remove_handle h (w_connections w);
     w_statements := w_statements w;
     w_history := w_history w; w_log := w_log w; w_fault := w_fault w |}.

Definition release_statement (h : handle) (w : world) : world :=
  {| w_db := w_db w; w_token := w_token w; w_next_handle := w_next_handle w;
     w_connections := w_connections w;
     w_statements := remove_handle h (w_statements w);
     w_history := w_history w; w_log := w_log w; w_fault := w_fault w |}.

Definition add_line (m : message) (w : world) : world :=
  {| w_db := w_db w; w_token := w_token w; w_next_handle := w_next_handle w;
     w_connections := w_connections w; w_statements := w_statements w;
     w_history := w_history w; w_log := m :: w_log w; w_fault := w_fault w |}.

(* ================================================================= *)
(** ** State and exceptions *)

Inductive result (A : Type) :=
| Ok (a : A)
| Raise (e : exn).
Arguments Ok {A} a.
Arguments Raise {A} e.

Definition M (S A : Type) : Type := S -> result A * S.

Definition ret {S A} (a : A) : M S A := fun s => (Ok a, s).

Definition raise {S A} (e : exn) : M S A := fun s => (Raise e, s).

Definition bind {S A B} (m : M S A) (k : A -> M S B) : M S B :=
  fun s => match m s with
           | (Ok a, s') => k a s'
           | (Raise e, s') => (Raise e, s')
           end.

Declare Scope py_scope.
Delimit Scope py_scope with py.
Notation "x <- c1 ;; c2" := (bind c1 (fun x => c2))
  (at level 61, c1 at next level, right associativity) : py_scope.
Notation "c1 ;; c2" := (bind c1 (fun _ => c2))
  (at level 61, right associativity) : py_scope.
Local Open Scope py_scope.

(** [try: body except Exception as e: handler e] *)
Definition try_except {S A} (body : M S A) (handler : exn -> M S A) : M S A :=
  fun s => match body s with
           | (Ok a, s') => (Ok a, s')
           | (Raise e, s') => handler e s'
           end.

(** [try: body finally: final] *)
Definition try_finally {S A} (body : M S A) (final : M S unit) : M S A :=
  fun s => match body s with
           | (r, s') => match final s' with
                        | (Ok _, s'') => (r, s'')
                        | (Raise e, s'') => (Raise e, s'')
                        end
           end.

(** Local variables of the two functions that hold resources. *)
Record frame := {
  conn : option handle;
  stmt : option handle;
  table_created : bool
}.

Definition new_frame : frame :=
  {| conn := None; stmt := None; table_created := false |}.

Definition lift {A} (m : M world A) : M (frame * world) A :=
  fun s => match m (snd s) with (r, w') => (r, (fst s, w')) end.

Definition assign_conn (h : handle) : M (frame * world) unit :=
  fun s => (Ok tt, ({| conn := Some h; stmt := stmt (fst s);
                       table_created := table_created (fst s) |}, snd s)).

Definition assign_stmt (h : handle) : M (frame * world) unit :=
  fun s => (Ok tt, ({| conn := conn (fst s); stmt := Some h;
                       table_created := table_created (fst s) |}, snd s)).

Definition assign_table_created (b : bool) : M (frame * world) unit :=
  fun s => (Ok tt, ({| conn := conn (fst s); stmt := stmt (fst s);
                       table_created := b |}, snd s)).

Definition local {A} (get : frame -> A) : M (frame * world) A :=
  fun s => (Ok (get (fst s)), s).

(** Running a function body in a fresh frame. *)
Definition call_function {A} (body : M (frame * world) A) : M world A :=
  fun w => match body (new_frame, w) with (r, s') => (r, snd s') end.

(* ================================================================= *)
(** ** The primitives of the collaborators *)

(** A call that the fault oracle may make raise, and that the collaborator
    itself may reject. *)
Definition external {A} (c : call) (run : world -> (A * outcome * world) + exn)
  : M world A :=
  fun w => match w_fault w (w_history w) c with
           | Some e => (Raise e, record_event c (Raised e) w)
           | None =>
               match run w with
               | inl (a, o, w') => (Ok a, record_event c o w')
               | inr e => (Raise e, record_event c (Raised e) w)
               end
           end.

Definition print (m : message) : M world unit :=
  fun w => (Ok tt, add_line m w).

(** [mssparkutils.credentials.getToken] *)
Definition getToken (audience : string) : M world string :=
  external (GetToken audience)
    (fun w => inl (w_token w, ReturnedText (w_token w), w)).

(** [DriverManager.getConnection] *)
Definition getConnection (jdbc_url : string) (props : list (string * string))
  : M world handle :=
  external (GetConnection jdbc_url props)
    (fun w => let (h, w') := open_connection w in inl (h, ReturnedHandle h, w')).

(** [conn.createStatement()] *)
Definition createStatement (c : handle) : M world handle :=
  external (CreateStatement c)
    (fun w => let (h, w') := open_statement w in inl (h, ReturnedHandle h, w')).

(** [stmt.executeQuery(query)] *)
Definition executeQuery (s : handle) (q : query) : M world (list sql) :=
  external (ExecuteQuery s q)
    (fun w => let rows := Engine.run_query q (Engine.db_catalog (w_db w)) in
              inl (rows, ReturnedRows rows, w)).

(** [stmt.execute(sql)] *)
Definition execute (s : handle) (text : sql) : M world unit :=
  external (Execute s text)
    (fun w => match Engine.run_statement text (w_db w) with
              | inl d => inl (tt, Returned, set_db d w)
              | inr e => inr e
              end).

(** [mssparkutils.fs.rm(path, recurse)] *)
Definition fs_rm (path : string) (recurse : bool) : M world bool :=
  external (FsRm path recurse)
    (fun w => let (d, b) := Engine.remove_path path (w_db w) in
              inl (b, ReturnedBool b, set_db d w)).

(** [stmt.close()] and [conn.close()] *)
Definition close_statement (s : handle) : M world unit :=
  fun w => (Ok tt, record_event (CloseStatement s) Returned (release_statement s w)).

Definition close_connection (c : handle) : M world unit :=
  fun w => (Ok tt, record_event (CloseConnection c) Returned (release_connection c w)).

(** [rs.next()] on a result set that has just been returned. *)
Definition rs_next (rs : list sql) : bool :=
  match rs with [] => false | _ :: _ => true end.

(* ================================================================= *)
(** ** The notebook *)

(** The literal parts of the [cetas_sql] template that the user edits. *)
Record cetas_text := {
  with_location : string;
  with_data_source : string;
  with_file_format : string;
  as_select : select_result
}.

(** The module-level names bound by the configuration cell. *)
Record notebook := {
  CONFIG : config;
  cetas_sql : sql
}.

(** Running the configuration cell: [CONFIG = {...}] and then
    [cetas_sql = f"...{CONFIG['external_table']}..."]. *)
Definition configuration_cell (cfg : config) (text : cetas_text) : notebook :=
  {| CONFIG := cfg;
     cetas_sql :=
       CreateExternalTableAsSelect (external_table cfg) (with_location text)
         (with_data_source text) (with_file_format text) (as_select text) |}.

(** The template as it ships. *)
Definition shipped_text (select : select_result) : cetas_text :=
  {| with_location := "/folder_name/";
     with_data_source := "data_source_name";
     with_file_format := "file_format_name";
     as_select := select |}.

(** A later assignment to [CONFIG]; [cetas_sql] is a string and stays. *)
Definition rebind_CONFIG (cfg : config) (g : notebook) : notebook :=
  {| CONFIG := cfg; cetas_sql := cetas_sql g |}.

Definition jdbc_url (config : config) : string :=
  ("jdbc:sqlserver://" ++ workspace_name config
   ++ "-ondemand.sql.azuresynapse.net:1433;"
   ++ "database=" ++ database_name config ++ ";"
   ++ "encrypt=true;"
   ++ "trustServerCertificate=false;"
   ++ "hostNameInCertificate=*.sql.azuresynapse.net;"
   ++ "loginTimeout=30;")%string.

Definition get_jdbc_connection (config : config) : M world handle :=
  token <- getToken "DW" ;;
  let props := [("accessToken", token);
                ("driver", "com.microsoft.sqlserver.jdbc.SQLServerDriver")] in
  getConnection (jdbc_url config) props.

Definition table_exists (stmt : handle) (table_name : string) : M world bool :=
  let query := SelectExternalTablesNamed (PyStr.unqualified table_name) in
  rs <- executeQuery stmt query ;;
  ret (rs_next rs).

Definition drop_external_table (stmt : handle) (table_name : string) : M world unit :=
  execute stmt (DropExternalTable table_name) ;;
  print (Dropped table_name).

Definition delete_adls_path (path : string) : M world unit :=
  deleted <- fs_rm path true ;;
  if deleted then print (DeletedPath path) else print (PathNotFound path).

Definition create_external_table (g : notebook) (stmt : handle) (config : config)
  : M world unit :=
  let location_folder :=
    PyStr.last_item
      (PyStr.split "/" (PyStr.rstrip "/" (materialized_table_output_path config))) in
  execute stmt (cetas_sql g) ;;
  print (Created (external_table config)).

(** [while rs.next(): commands.append(rs.getString(1))] *)
Fixpoint while_rs_next (rs : list sql) (commands : list sql) : list sql :=
  match rs with
  | [] => commands
  | row :: rest => while_rs_next rest (commands ++ [row])
  end.

(** [for cmd in commands: try: ... except Exception as e: ...] *)
Fixpoint for_cmd_in (stmt : handle) (commands : list sql) : M world unit :=
  match commands with
  | [] => ret tt
  | cmd :: rest =>
      try_except
        (execute stmt cmd ;; print (Executed cmd))
        (fun e => print (Failed cmd e)) ;;
      for_cmd_in stmt rest
  end.

(** The [finally] block shared by both functions, up to its last [print]. *)
Definition close_all : M (frame * world) unit :=
  s <- local stmt ;;
  match s with Some h => lift (close_statement h) | None => ret tt end ;;
  c <- local conn ;;
  match c with Some h => lift (close_connection h) | None => ret tt end.

Definition create_statistics_for_external_table (config : config) : M world unit :=
  call_function
    (try_finally
       (try_except
          (c <- lift (get_jdbc_connection config) ;;
           assign_conn c ;;
           s <- lift (createStatement c) ;;
           assign_stmt s ;;
           let table_name := PyStr.unqualified (external_table config) in
           let stats_sql := SelectCreateStatisticsCommands table_name in
           rs <- lift (executeQuery s stats_sql) ;;
           let commands := while_rs_next rs [] in
           match commands with
           | [] => lift (print (NoStatistics table_name))
           | _ :: _ =>
               lift (print (CreatingStatistics (length commands) table_name)) ;;
               lift (for_cmd_in s commands)
           end)
          (fun e => lift (print (StatisticsError e)) ;; raise e))
       (close_all ;; lift (print StatisticsCompleted))).

(** The [try/except/finally] statement of [refresh_external_table]. *)
Definition refresh_steps (g : notebook) (config : config) : M (frame * world) unit :=
  try_finally
    (try_except
       (c <- lift (get_jdbc_connection config) ;;
        assign_conn c ;;
        s <- lift (createStatement c) ;;
        assign_stmt s ;;
        exists_ <- lift (table_exists s (external_table config)) ;;
        (if exists_ : bool
         then lift (drop_external_table s (external_table config))
         else lift (print (SkippingDrop (external_table config)))) ;;
        lift (delete_adls_path (materialized_table_output_path config)) ;;
        lift (create_external_table g s config) ;;
        assign_table_created true)
       (fun e => lift (print (RefreshError e)) ;; raise e))
    (close_all ;; lift (print RefreshCompleted)).

Definition refresh_external_table (g : notebook) (config : config) : M world unit :=
  call_function
    (refresh_steps g config ;;
     created <- local table_created ;;
     if created : bool
     then lift (create_statistics_for_external_table config)
     else lift (print SkippingStatistics)).

(** The last cell: [refresh_external_table(CONFIG)]. *)
Definition run_notebook (g : notebook) : M world unit :=
  refresh_external_table g (CONFIG g).

(* ================================================================= *)
(** ** Sample worlds *)

Definition empty_catalog : Engine.catalog :=
  {| Engine.sys_objects := []; Engine.sys_columns := [];
     Engine.sys_stats_columns := []; Engine.sys_stats := [] |}.

Definition no_faults : list event -> call -> option exn := fun _ _ => None.

Definition initial_world (d : Engine.db) (fault : list event -> call -> option exn)
  : world :=
  {| w_db := d; w_token := "token"; w_next_handle := 0;
     w_connections := []; w_statements := [];
     w_history := []; w_log := []; w_fault := fault |}.

Definition sample_root : string := "abfss://tables@storageaccount.dfs.core.windows.net".

Definition sample_db (c : Engine.catalog) (files : list Engine.file) : Engine.db :=
  {| Engine.db_catalog := c; Engine.db_files := files;
     Engine.db_data_sources := [("data_source_name", sample_root)] |}.

Definition sample_config : config :=
  {| external_table := "Sales_Materialized";
     workspace_name := "myworkspace";
     database_name := "reportingdb";
     materialized_table_output_path :=
       "abfss://tables@storageaccount.dfs.core.windows.net/folder/materialized_table/" |}.

Definition sample_select : select_result :=
  {| sel_columns := ["id"; "amount"]; sel_data := "rows" |}.

(* ================================================================= *)
(** ** Vocabulary of the properties *)

(** What has been called, and printed, between two worlds of one run. *)
Definition new_events (w w' : world) : list event :=
  rev (firstn (length (w_history w') - length (w_history w)) (w_history w')).

Definition new_lines (w w' : world) : list message :=
  rev (firstn (length (w_log w') - length (w_log w)) (w_log w')).

(** The line printed for one statistics command, by its outcome. *)
Definition report (cmd : sql) (o : outcome) : message :=
  match o with
  | Raised e => Failed cmd e
  | _ => Executed cmd
  end.

Definition executed_by (s : handle) (p : sql * outcome) : event :=
  (Execute s (fst p), snd p).

Definition reported (p : sql * outcome) : message := report (fst p) (snd p).

Definition is_drop (c : call) : bool :=
  match c with Execute _ (DropExternalTable _) => true | _ => false end.

Definition is_cleanup (c : call) : bool :=
  match c with FsRm _ _ => true | _ => false end.

Definition is_create (c : call) : bool :=
  match c with Execute _ (CreateExternalTableAsSelect _ _ _ _ _) => true | _ => false end.

Definition is_statistics_command (c : call) : bool :=
  match c with Execute _ (CreateStatistics _ _ _ _) => true | _ => false end.

Definition is_close (c : call) : bool :=
  match c with CloseStatement _ | CloseConnection _ => true | _ => false end.

(** Calls that go through a statement. *)
Definition is_statement_call (c : call) : bool :=
  match c with ExecuteQuery _ _ | Execute _ _ => true | _ => false end.

Definition has_raised (ev : event) : bool :=
  match snd ev with Raised _ => true | _ => false end.

(** Handles that an event mentions. *)
Definition handles_of (ev : event) : list handle :=
  match ev with
  | (GetConnection _ _, ReturnedHandle c) => [c]
  | (CreateStatement c, ReturnedHandle s) => [c; s]
  | (CreateStatement c, _) => [c]
  | (ExecuteQuery s _, _) => [s]
  | (Execute s _, _) => [s]
  | (CloseStatement s, _) => [s]
  | (CloseConnection c, _) => [c]
  | _ => []
  end.

(** Connections obtained, and connections closed, in order. *)
Definition acquired (evs : list event) : list handle :=
  flat_map (fun ev => match ev with
                      | (GetConnection _ _, ReturnedHandle c) => [c]
                      | _ => []
                      end) evs.

Definition released (evs : list event) : list handle :=
  flat_map (fun ev => match ev with
                      | (CloseConnection c, _) => [c]
                      | _ => []
                      end) evs.

(** The fault oracle leaves the calls selected by [p] alone. *)
Definition spares (p : call -> bool) (w : world) : Prop :=
  forall h c, p c = true -> w_fault w h c = None.

Definition props_of (w : world) : list (string * string) :=
  [("accessToken", w_token w);
   ("driver", "com.microsoft.sqlserver.jdbc.SQLServerDriver")].

Definition statistics_query (config : config) : query :=
  SelectCreateStatisticsCommands (PyStr.unqualified (external_table config)).

(** The runs of [create_statistics_for_external_table] from a world [w]: the
    result, the calls made and the lines printed. *)
Inductive statistics_run (config : config) (w : world)
  : result unit -> list event -> list message -> Prop :=
| stats_token_raised e :
    w_fault w (w_history w) (GetToken "DW") = Some e ->
    statistics_run config w (Raise e)
      [(GetToken "DW", Raised e)]
      [StatisticsError e; StatisticsCompleted]
| stats_connection_raised e :
    w_fault w ((GetToken "DW", ReturnedText (w_token w)) :: w_history w)
      (GetConnection (jdbc_url config) (props_of w)) = Some e ->
    statistics_run config w (Raise e)
      [(GetToken "DW", ReturnedText (w_token w));
       (GetConnection (jdbc_url config) (props_of w), Raised e)]
      [StatisticsError e; StatisticsCompleted]
| stats_statement_raised e :
    let c := w_next_handle w in
    w_fault w
      ((GetConnection (jdbc_url config) (props_of w), ReturnedHandle c)
       :: (GetToken "DW", ReturnedText (w_token w)) :: w_history w)
      (CreateStatement c) = Some e ->
    statistics_run config w (Raise e)
      [(GetToken "DW", ReturnedText (w_token w));
       (GetConnection (jdbc_url config) (props_of w), ReturnedHandle c);
       (CreateStatement c, Raised e);
       (CloseConnection c, Returned)]
      [StatisticsError e; StatisticsCompleted]
| stats_query_raised e :
    let c := w_next_handle w in
    let s := S c in
    w_fault w
      ((CreateStatement c, ReturnedHandle s)
       :: (GetConnection (jdbc_url config) (props_of w), ReturnedHandle c)
       :: (GetToken "DW", ReturnedText (w_token w)) :: w_history w)
      (ExecuteQuery s (statistics_query config)) = Some e ->
    statistics_run config w (Raise e)
      [(GetToken "DW", ReturnedText (w_token w));
       (GetConnection (jdbc_url config) (props_of w), ReturnedHandle c);
       (CreateStatement c, ReturnedHandle s);
       (ExecuteQuery s (statistics_query config), Raised e);
       (CloseStatement s, Returned);
       (CloseConnection c, Returned)]
      [StatisticsError e; StatisticsCompleted]
| stats_applied outs :
    let c := w_next_handle w in
    let s := S c in
    let rows := Engine.run_query (statistics_query config) (Engine.db_catalog (w_db w)) in
    map fst outs = rows ->
    statistics_run config w (Ok tt)
      ([(GetToken "DW", ReturnedText (w_token w));
        (GetConnection (jdbc_url config) (props_of w), ReturnedHandle c);
        (CreateStatement c, ReturnedHandle s);
        (ExecuteQuery s (statistics_query config), ReturnedRows rows)]
       ++ map (executed_by s) outs
       ++ [(CloseStatement s, Returned); (CloseConnection c, Returned)])
      ((match rows with
        | [] => NoStatistics (PyStr.unqualified (external_table config))
        | _ :: _ => CreatingStatistics (length rows)
                      (PyStr.unqualified (external_table config))
        end)
       :: map reported outs ++ [StatisticsCompleted]).

(** The world, the locals and the result at the end of the
    [try/except/finally] statement of [refresh_external_table]. *)
Definition steps_result (g : notebook) (config : config) (w : world) : result unit :=
  fst (refresh_steps g config (new_frame, w)).

Definition steps_frame (g : notebook) (config : config) (w : world) : frame :=
  fst (snd (refresh_steps g config (new_frame, w))).

Definition steps_world (g : notebook) (config : config) (w : world) : world :=
  snd (snd (refresh_steps g config (new_frame, w))).

(** The calls of steps 1-4 (with the release of their connection), and the
    calls of the statistics phase. *)
Definition step_events (g : notebook) (config : config) (w : world) : list event :=
  new_events w (steps_world g config w).

Definition statistics_events (g : notebook) (config : config) (w : world) : list event :=
  new_events (steps_world g config w) (snd (refresh_external_table g config w)).

(** The first call that raised, with the calls made after it. *)
Fixpoint after_first_error (evs : list event) : option (event * list event) :=
  match evs with
  | [] => None
  | ev :: rest => if has_raised ev then Some (ev, rest) else after_first_error rest
  end.

Definition only_closes (evs : list event) : bool :=
  forallb (fun ev => is_close (fst ev)) evs.

Definition table_present (config : config) (w : world) : bool :=
  Engine.has_external_table (Engine.resolve (external_table config))
    (Engine.db_catalog (w_db w)).

(** An external table with the unqualified name of the target is in the
    catalog. *)
Definition pre_exists (config : config) (w : world) : bool :=
  existsb (fun o => String.eqb (Engine.o_name o)
                      (PyStr.unqualified (external_table config)))
    (Engine.sys_external_tables (Engine.db_catalog (w_db w))).

Definition is_cetas (s : sql) : bool :=
  match s with CreateExternalTableAsSelect _ _ _ _ _ => true | _ => false end.

(** The calls of a whole refresh, in order. *)
Definition refresh_calls (g : notebook) (config : config) (w : world) : list call :=
  map fst (step_events g config w ++ statistics_events g config w).

(** A way of reading, from what [delete_adls_path] returns, whether anything
    was deleted. *)
Definition tells_deletion (flag : result unit -> bool) : Prop :=
  forall path w,
    w_fault w (w_history w) (FsRm path true) = None ->
    flag (fst (delete_adls_path path w)) = snd (Engine.remove_path path (w_db w)).

Definition matching_external_tables (table_name : string) (w : world)
  : list Engine.object_row :=
  Engine.external_tables_named (PyStr.unqualified table_name)
    (Engine.db_catalog (w_db w)).

(** The commands that [create_statistics_for_external_table] collects. *)
Definition planned_statistics (config : config) (w : world) : list sql :=
  while_rs_next
    (Engine.run_query (statistics_query config) (Engine.db_catalog (w_db w))) [].

(** The columns of the target table, in the catalog's order. *)
Definition columns_of_target (config : config) (w : world) : list string :=
  map Engine.c_name
    (filter (fun c => Engine.oid_eqb (Engine.c_object_id c)
                        (Engine.resolve (external_table config)))
       (Engine.sys_columns (Engine.db_catalog (w_db w)))).

(** *** The effect of a refresh on the database when nothing is made to raise *)

Definition no_fault (w : world) : Prop := spares (fun _ => true) w.

(** A statement whose rejection, if any, is caught. *)
Definition attempt (d : Engine.db) (s : sql) : Engine.db :=
  match Engine.run_statement s d with
  | inl d' => d'
  | inr _ => d
  end.

Definition statistics_db (config : config) (d : Engine.db) : Engine.db :=
  fold_left attempt
    (Engine.run_query (statistics_query config) (Engine.db_catalog d)) d.

(** Steps 1-4: the database they leave, and whether all of them succeeded. *)
Definition steps_db (g : notebook) (config : config) (d : Engine.db)
  : Engine.db * bool :=
  let found :=
    rs_next (Engine.run_query
               (SelectExternalTablesNamed (PyStr.unqualified (external_table config)))
               (Engine.db_catalog d)) in
  let dropped :=
    if found
    then Engine.run_statement (DropExternalTable (external_table config)) d
    else inl d in
  match dropped with
  | inr _ => (d, false)
  | inl d1 =>
      let d2 := fst (Engine.remove_path (materialized_table_output_path config) d1) in
      match Engine.run_statement (cetas_sql g) d2 with
      | inl d3 => (d3, true)
      | inr _ => (d2, false)
      end
  end.

Definition refresh_db (g : notebook) (config : config) (d : Engine.db) : Engine.db :=
  let (d3, created) := steps_db g config d in
  if created then statistics_db config d3 else d3.

(** *** Conditions under which a refresh can be repeated *)

Definition target (config : config) : Engine.object_id :=
  Engine.resolve (external_table config).

(** Every row of the column and statistics views belongs to an object. *)
Definition catalog_wf (c : Engine.catalog) : bool :=
  forallb (fun x => Engine.has_object (Engine.c_object_id x) c) (Engine.sys_columns c)
  && forallb (fun x => Engine.has_object (Engine.sc_object_id x) c)
       (Engine.sys_stats_columns c)
  && forallb (fun x => Engine.has_object (Engine.s_object_id x) c) (Engine.sys_stats c).

(** Any object that has the target's unqualified name is the target, and is
    an external table. *)
Definition name_is_targets (config : config) (c : Engine.catalog) : bool :=
  forallb (fun o =>
             if String.eqb (Engine.o_name o) (PyStr.unqualified (external_table config))
             then Engine.oid_eqb (Engine.o_object_id o) (target config)
                  && Engine.is_external (Engine.o_type o)
             else true)
    (Engine.sys_objects c).

(** [cetas_sql] creates the table that [config] names, and writes under the
    path that [config] has cleaned. *)
Definition consistent (g : notebook) (config : config) (d : Engine.db) : bool :=
  match cetas_sql g with
  | CreateExternalTableAsSelect t location data_source _ _ =>
      Engine.oid_eqb (Engine.resolve t) (target config)
      && match Engine.lookup_data_source data_source d with
         | Some root =>
             String.prefix (Engine.directory (materialized_table_output_path config))
               (Engine.directory (root ++ location))
         | None => false
         end
  | _ => false
  end.

(** The files that the storage cleanup of [config] leaves. *)
Definition kept_files (config : config) (d : Engine.db) : list Engine.file :=
  filter (fun f => negb (Engine.under (materialized_table_output_path config) f))
    (Engine.db_files d).

(** The database right after a successful create. *)
Definition created_db (g : notebook) (config : config) (d : Engine.db) : Engine.db :=
  match cetas_sql g with
  | CreateExternalTableAsSelect t location data_source _ select =>
      match Engine.lookup_data_source data_source d with
      | Some root =>
          {| Engine.db_catalog :=
               Engine.add_external_table (target config) (sel_columns select)
                 (Engine.remove_object (target config) (Engine.db_catalog d));
             Engine.db_files :=
               kept_files config d
               ++ [{| Engine.f_path :=
                        (Engine.directory (root ++ location) ++ "part-0.parquet")%string;
                      Engine.f_content := sel_data select |}];
             Engine.db_data_sources := Engine.db_data_sources d |}
      | None => d
      end
  | _ => d
  end.

(** The existence check, on the database. *)
Definition found (config : config) (d : Engine.db) : bool :=
  rs_next (Engine.run_query
             (SelectExternalTablesNamed (PyStr.unqualified (external_table config)))
             (Engine.db_catalog d)).

(** What a loop over statistics commands leaves untouched. *)
Definition same_resources (w w' : world) : Prop :=
  w_connections w' = w_connections w /\ w_statements w' = w_statements w /\
  w_next_handle w' = w_next_handle w /\ w_fault w' = w_fault w /\
  w_token w' = w_token w.

(** A statistics command on a column of the target. *)
Definition on_target (config : config) (s : sql) : Prop :=
  exists a col, s = CreateStatistics a (fst (target config)) (snd (target config)) col.

(** Two databases that differ at most in what belongs to the target. *)
Definition same_off_target (config : config) (d d' : Engine.db) : Prop :=
  Engine.remove_object (target config) (Engine.db_catalog d')
  = Engine.remove_object (target config) (Engine.db_catalog d) /\
  Engine.sys_objects (Engine.db_catalog d') = Engine.sys_objects (Engine.db_catalog d) /\
  Engine.sys_columns (Engine.db_catalog d') = Engine.sys_columns (Engine.db_catalog d) /\
  Engine.db_files d' = Engine.db_files d /\
  Engine.db_data_sources d' = Engine.db_data_sources d.

(** How often the target is in the catalog. *)
Definition target_count (config : config) (d : Engine.db) : nat :=
  length (filter (fun o => Engine.oid_eqb (Engine.o_object_id o) (target config))
            (Engine.sys_objects (Engine.db_catalog d))).

(** The files under the path that [config] has cleaned. *)
Definition output_files (config : config) (d : Engine.db) : list Engine.file :=
  filter (Engine.under (materialized_table_output_path config)) (Engine.db_files d).

(** The statistics on the target. *)
Definition target_statistics (config : config) (d : Engine.db) : list Engine.stats_row :=
  Engine.stats_of (target config) (Engine.db_catalog d).

(** The data that [cetas_sql] selects. *)
Definition selected_data (g : notebook) : string :=
  match cetas_sql g with
  | CreateExternalTableAsSelect _ _ _ _ select => sel_data select
  | _ => EmptyString
  end.

(** The row of the target in [sys.objects], the rows of its columns, and the
    statistics command for one of them. *)
Definition target_row (config : config) : Engine.object_row :=
  {| Engine.o_schema := fst (target config); Engine.o_name := snd (target config);
     Engine.o_type := Engine.ExternalTable |}.

Definition target_columns (config : config) (names : list string)
  : list Engine.column_row :=
  Engine.number_columns (target config) 1 names.

(** A statistics object is on the column [col] of the target. *)
Definition has_statistics (config : config) (d : Engine.db) (col : Engine.column_row)
  : bool :=
  existsb (fun sc => Engine.oid_eqb (Engine.sc_object_id sc) (target config)
                     && Nat.eqb (Engine.sc_column_id sc) (Engine.c_column_id col))
    (Engine.sys_stats_columns (Engine.db_catalog d)).

(** Every column of the target has a statistics object on it. *)
Definition all_columns_have_statistics (config : config) (d : Engine.db) : bool :=
  forallb (has_statistics config d)
    (filter (fun col => Engine.oid_eqb (Engine.c_object_id col) (target config))
       (Engine.sys_columns (Engine.db_catalog d))).

(** The columns that [cetas_sql] selects. *)
Definition selected_columns (g : notebook) : list string :=
  match cetas_sql g with
  | CreateExternalTableAsSelect _ _ _ _ select => sel_columns select
  | _ => []
  end.

(* ================================================================= *)
(** ** Sample notebooks, catalogs and fault oracles *)

(** The notebook as it ships, and one whose [LOCATION] is the configured
    output path. *)
Definition shipped_notebook : notebook :=
  configuration_cell sample_config (shipped_text sample_select).

Definition tidy_notebook : notebook :=
  configuration_cell sample_config
    {| with_location := "/folder/materialized_table/";
       with_data_source := "data_source_name";
       with_file_format := "file_format_name";
       as_select := sample_select |}.

Definition sales_id : Engine.object_id := ("dbo", "Sales_Materialized").

Definition sales_catalog : Engine.catalog :=
  Engine.add_external_table sales_id ["id"; "amount"] empty_catalog.

Definition old_file : Engine.file :=
  {| Engine.f_path :=
       "abfss://tables@storageaccount.dfs.core.windows.net/folder/materialized_table/part-0.parquet";
     Engine.f_content := "old rows" |}.

Definition empty_world : world := initial_world (sample_db empty_catalog []) no_faults.

Definition world_with_table (fault : list event -> call -> option exn) : world :=
  initial_world (sample_db sales_catalog [old_file]) fault.

(** A second external table of the same name in another schema. *)
Definition two_schemas_catalog : Engine.catalog :=
  Engine.add_external_table ("staging", "Sales_Materialized") ["key"] sales_catalog.

Definition two_schemas_world : world :=
  initial_world (sample_db two_schemas_catalog []) no_faults.

(** Two statistics objects on the column [id] of the table. *)
Definition id_column : Engine.column_row :=
  {| Engine.c_object_id := sales_id; Engine.c_column_id := 1; Engine.c_name := "id" |}.

Definition analysed_catalog : Engine.catalog :=
  Engine.add_statistics sales_id "auto_id_2" id_column
    (Engine.add_statistics sales_id "auto_id_1" id_column sales_catalog).

Definition analysed_world : world :=
  initial_world (sample_db analysed_catalog []) no_faults.

(** Oracles that make the create statement raise, and that make the
    statistics command on one column raise. *)
Definition failing_create (e : exn) : list event -> call -> option exn :=
  fun _ c => if is_create c then Some e else None.

Definition failing_statistics (column : string) (e : exn)
  : list event -> call -> option exn :=
  fun _ c =>
    match c with
    | Execute _ (CreateStatistics _ _ _ col) =>
        if String.eqb col column then Some e else None
    | _ => None
    end.

Definition syntax_error : exn := QueryError "syntax error".
Definition timeout : exn := QueryError "timeout".

Definition world_with_old_files : world :=
  initial_world (sample_db empty_catalog [old_file]) no_faults.

Definition two_schemas_world_with_files : world :=
  initial_world (sample_db two_schemas_catalog [old_file]) no_faults.

(** The statistics commands among the calls of a refresh. *)
Definition statistics_commands (g : notebook) (config : config) (w : world) : list sql :=
  flat_map (fun c => match c with
                     | Execute _ (CreateStatistics a b d e) => [CreateStatistics a b d e]
                     | _ => []
                     end)
    (refresh_calls g config w).

(** The state after one refresh of the shipped notebook on an empty engine,
    and after a second one. *)
Definition shipped_once : result unit * world :=
  refresh_external_table shipped_notebook sample_config empty_world.

Definition shipped_twice : result unit * world :=
  refresh_external_table shipped_notebook sample_config (snd shipped_once).

(* ================================================================= *)
(** ** Vocabulary of the further properties *)

(** Every open handle was handed out by the counter. *)
Definition handles_wf (w : world) : Prop :=
  (forall h, In h (w_connections w) -> h < w_next_handle w) /\
  (forall h, In h (w_statements w) -> h < w_next_handle w).

(** Files outside [path] that are in [d] are still in [d']. *)
Definition files_kept (path : string) (d d' : Engine.db) : Prop :=
  forall f, In f (Engine.db_files d) -> Engine.under path f = false ->
            In f (Engine.db_files d').

(** Objects other than [id] that are in [d] are still in [d']. *)
Definition others_kept (id : Engine.object_id) (d d' : Engine.db) : Prop :=
  forall o, In o (Engine.sys_objects (Engine.db_catalog d)) ->
            Engine.o_object_id o <> id ->
            In o (Engine.sys_objects (Engine.db_catalog d')).

(** [d'] differs from [d] in statistics at most. *)
Definition statistics_only (d d' : Engine.db) : Prop :=
  Engine.sys_objects (Engine.db_catalog d') = Engine.sys_objects (Engine.db_catalog d) /\
  Engine.sys_columns (Engine.db_catalog d') = Engine.sys_columns (Engine.db_catalog d) /\
  Engine.db_files d' = Engine.db_files d /\
  Engine.db_data_sources d' = Engine.db_data_sources d.

(** The table that [cetas_sql] names. *)
Definition created_table (g : notebook) : Engine.object_id :=
  match cetas_sql g with
  | CreateExternalTableAsSelect t _ _ _ _ => Engine.resolve t
  | _ => (EmptyString, EmptyString)
  end.

(** A world with connections and a statement of other code open. *)
Definition busy_world : world :=
  {| w_db := sample_db sales_catalog [old_file]; w_token := "token";
     w_next_handle := 3; w_connections := [0; 2]; w_statements := [1];
     w_history := []; w_log := []; w_fault := failing_create syntax_error |}.

(** In [evs], given whether a storage cleanup has returned already, no create
    call is made before one has. *)
Fixpoint cleaned_before_create (cleaned : bool) (evs : list event) : bool :=
  match evs with
  | [] => true
  | (c, o) :: rest =>
      if is_create c then cleaned && cleaned_before_create cleaned rest
      else if is_cleanup c
           then cleaned_before_create
                  (match o with ReturnedBool _ => true | _ => cleaned end) rest
           else cleaned_before_create cleaned rest
  end.

Definition cleanup_returned (ev : event) : bool :=
  match ev with (FsRm _ _, ReturnedBool _) => true | _ => false end.

Definition count_calls (p : call -> bool) (evs : list event) : nat :=
  length (filter (fun ev => p (fst ev)) evs).

(** The lines of steps 1-4 that tell how a step went, and the line that the
    outcome of a call stands for. *)
Definition is_step_line (m : message) : bool :=
  match m with
  | Dropped _ | SkippingDrop _ | DeletedPath _ | PathNotFound _ | Created _ => true
  | _ => false
  end.

Definition line_of (config : config) (ev : event) : list message :=
  match ev with
  | (ExecuteQuery _ (SelectExternalTablesNamed _), ReturnedRows []) =>
      [SkippingDrop (external_table config)]
  | (Execute _ (DropExternalTable t), Returned) => [Dropped t]
  | (FsRm p _, ReturnedBool true) => [DeletedPath p]
  | (FsRm p _, ReturnedBool false) => [PathNotFound p]
  | (Execute _ (CreateExternalTableAsSelect _ _ _ _ _), Returned) =>
      [Created (external_table config)]
  | _ => []
  end.

(** An oracle that lets the first connection through and refuses the next. *)
Definition failing_second_connection (e : exn) : list event -> call -> option exn :=
  fun h c =>
    match c with
    | GetConnection _ _ => if existsb (fun ev => is_close (fst ev)) h then Some e else None
    | _ => None
    end.

Definition refused : exn := ConnectionError "login failed".

(** [ch in s] *)
Fixpoint has_char (ch : ascii) (s : string) : bool :=
  match s with
  | EmptyString => false
  | String c s' => Ascii.eqb c ch || has_char ch s'
  end.

(** The table of the sample under another schema only, and a config that
    names it with its schema. *)
Definition staging_catalog : Engine.catalog :=
  Engine.add_external_table ("staging", "Sales_Materialized") ["key"] empty_catalog.

Definition staging_world : world :=
  initial_world (sample_db staging_catalog [old_file]) no_faults.

Definition staging_config : config :=
  {| external_table := "staging.Sales_Materialized";
     workspace_name := workspace_name sample_config;
     database_name := database_name sample_config;
     materialized_table_output_path := materialized_table_output_path sample_config |}.

(* ================================================================= *)
(** * Properties *)

Unset Implicit Arguments.

(** ** The helpers on small inputs *)

Example split_qualified : PyStr.split "." "dbo.Sales" = ["dbo"; "Sales"].
Proof. reflexivity. Qed.

Example split_empty : PyStr.split "." "" = [""].
Proof. reflexivity. Qed.

Example unqualified_of_qualified : PyStr.unqualified "reporting.dbo.Sales" = "Sales".
Proof. reflexivity. Qed.

Example unqualified_of_plain : PyStr.unqualified "Sales" = "Sales".
Proof. reflexivity. Qed.

Example rstrip_slashes :
  PyStr.rstrip "/" "folder/materialized_table//" = "folder/materialized_table".
Proof. reflexivity. Qed.

Example rstrip_inner_kept : PyStr.rstrip "/" "/a/b" = "/a/b".
Proof. reflexivity. Qed.

Example resolve_plain : Engine.resolve "Sales" = ("dbo", "Sales").
Proof. reflexivity. Qed.

Example resolve_qualified : Engine.resolve "staging.Sales" = ("staging", "Sales").
Proof. reflexivity. Qed.

Example drop_text :
  render_sql (DropExternalTable "dbo.Sales") = Some "DROP EXTERNAL TABLE dbo.Sales".
Proof. reflexivity. Qed.

Example statistics_text :
  render_sql (Engine.cmd_create
                {| Engine.o_schema := "dbo"; Engine.o_name := "Sales";
                   Engine.o_type := Engine.ExternalTable |}
                {| Engine.c_object_id := ("dbo", "Sales"); Engine.c_column_id := 1;
                   Engine.c_name := "id" |})
  = Some "CREATE STATISTICS [Stats_id] ON [dbo].[Sales] ([id]) WITH FULLSCAN;".
Proof. reflexivity. Qed.

Example sibling_folder_not_under :
  Engine.under "abfss://c@a/folder/table"
    {| Engine.f_path := "abfss://c@a/folder/table2/part-0.parquet";
       Engine.f_content := "rows" |} = false.
Proof. reflexivity. Qed.

Example first_refresh_on_empty_engine :
  fst (refresh_external_table shipped_notebook sample_config empty_world) = Ok tt /\
  printed (snd (refresh_external_table shipped_notebook sample_config empty_world)) =
    [SkippingDrop "Sales_Materialized";
     PathNotFound (materialized_table_output_path sample_config);
     Created "Sales_Materialized";
     RefreshCompleted;
     CreatingStatistics 2 "Sales_Materialized";
     Executed (CreateStatistics "Stats_id" "dbo" "Sales_Materialized" "id");
     Executed (CreateStatistics "Stats_amount" "dbo" "Sales_Materialized" "amount");
     StatisticsCompleted].
Proof. split; reflexivity. Qed.

(** ** Symbolic execution *)

Opaque Engine.run_query Engine.run_statement Engine.remove_path.
Opaque jdbc_url PyStr.unqualified.

Ltac unfold_all :=
  unfold refresh_external_table, refresh_steps, create_statistics_for_external_table,
    call_function, try_finally, try_except, close_all, get_jdbc_connection,
    table_exists, drop_external_table, delete_adls_path, create_external_table,
    getToken, getConnection, createStatement, executeQuery, execute, fs_rm,
    close_statement, close_connection, print, external, bind, lift, ret, raise,
    local, assign_conn, assign_stmt, assign_table_created in *.

Ltac fork :=
  match goal with
  | |- context [w_fault ?w ?h ?c] =>
      let e := fresh "e" in let H := fresh "Hf" in
      destruct (w_fault w h c) as [e|] eqn:H; simpl
  | |- context [Engine.run_statement ?text ?base] =>
      let e := fresh "e" in let d := fresh "d" in let H := fresh "Hs" in
      destruct (Engine.run_statement text base) as [d|e] eqn:H; simpl
  | |- context [rs_next ?r] =>
      let H := fresh "Hq" in destruct r eqn:H; simpl
  | |- context [Engine.remove_path ?p ?base] =>
      let d := fresh "d" in let H := fresh "Hrm" in
      destruct (Engine.remove_path p base) as [d [|]] eqn:H; simpl
  end.

Lemma extends_nil {A} (h : list A) : h = [] ++ h.
Proof. reflexivity. Qed.

Lemma extends_cons {A} (x : A) (l l' h : list A) : l = l' ++ h -> x :: l = (x :: l') ++ h.
Proof. intros ->. reflexivity. Qed.

Lemma extends_app {A} (l1 l l' h : list A) : l = l' ++ h -> l1 ++ l = (l1 ++ l') ++ h.
Proof. intros ->. apply app_assoc. Qed.

Ltac extends :=
  first [ apply extends_nil
        | apply extends_cons; extends
        | apply extends_app; extends ].

Lemma firstn_extension {A} (l h : list A) :
  firstn (length (l ++ h) - length h) (l ++ h) = l.
Proof.
  rewrite length_app.
  replace (length l + length h - length h) with (length l + 0) by lia.
  rewrite firstn_app_2. simpl. apply app_nil_r.
Qed.

Lemma new_events_extension w w' l :
  w_history w' = l ++ w_history w -> new_events w w' = rev l.
Proof. intros H. unfold new_events. rewrite H, firstn_extension. reflexivity. Qed.

Lemma new_lines_extension w w' l :
  w_log w' = l ++ w_log w -> new_lines w w' = rev l.
Proof. intros H. unfold new_lines. rewrite H, firstn_extension. reflexivity. Qed.

Ltac observe :=
  repeat (erewrite new_events_extension by (simpl; extends));
  repeat (erewrite new_lines_extension by (simpl; extends));
  simpl.

Lemma remove_handle_subset h l x : In x (remove_handle h l) -> In x l.
Proof. unfold remove_handle. intros H. apply filter_In in H. tauto. Qed.

(** ** The loops *)

Lemma while_rs_next_appends (rs : list sql) :
  forall commands, while_rs_next rs commands = commands ++ rs.
Proof.
  induction rs as [|row rest IH]; intros commands; simpl.
  - symmetry. apply app_nil_r.
  - rewrite IH, <- app_assoc. reflexivity.
Qed.

Lemma for_cmd_in_runs (s : handle) (commands : list sql) :
  forall w, exists (outs : list (sql * outcome)) (w' : world),
    for_cmd_in s commands w = (Ok tt, w') /\
    map fst outs = commands /\
    w_history w' = rev (map (executed_by s) outs) ++ w_history w /\
    w_log w' = rev (map reported outs) ++ w_log w /\
    same_resources w w'.
Proof.
  induction commands as [|cmd rest IH]; intros w.
  - exists [], w. unfold same_resources. simpl. auto 10.
  - simpl. unfold bind at 1. unfold try_except, bind, execute, external, print.
    destruct (w_fault w (w_history w) (Execute s cmd)) as [e|] eqn:Hf;
      [|destruct (Engine.run_statement cmd (w_db w)) as [d|e] eqn:Hs]; simpl;
      match goal with
      | |- context [for_cmd_in s rest ?w1] =>
          destruct (IH w1) as (outs & w' & Hrun & Hm & Hh & Hl & Hr)
      end;
      [ exists ((cmd, Raised e) :: outs), w'
      | exists ((cmd, Returned) :: outs), w'
      | exists ((cmd, Raised e) :: outs), w' ];
      rewrite Hrun, Hh, Hl; unfold executed_by, reported; simpl;
      rewrite Hm, <- !app_assoc; simpl;
      repeat split; try reflexivity; apply Hr.
Qed.

Lemma for_cmd_in_cons s cmd rest :
  for_cmd_in s (cmd :: rest) =
  bind (try_except (bind (execute s cmd) (fun _ => print (Executed cmd)))
          (fun e => print (Failed cmd e)))
    (fun _ => for_cmd_in s rest).
Proof. reflexivity. Qed.

Arguments for_cmd_in : simpl never.

Lemma statistics_phase (config : config) (w : world) :
  let R := create_statistics_for_external_table config w in
  statistics_run config w (fst R) (new_events w (snd R)) (new_lines w (snd R)) /\
  (exists l, w_history (snd R) = l ++ w_history w) /\
  (exists l, w_log (snd R) = l ++ w_log w) /\
  (forall h, In h (w_connections (snd R)) -> In h (w_connections w)) /\
  (forall h, In h (w_statements (snd R)) -> In h (w_statements w)) /\
  w_fault (snd R) = w_fault w.
Proof.
  unfold_all. simpl.
  fork; [|fork; [|fork; [|fork]]].
  1-4: observe; rewrite ?Nat.eqb_refl; simpl;
    repeat split; auto; try (eexists; extends);
    try (intros h Hh; repeat (apply remove_handle_subset in Hh); simpl in Hh; auto);
    first [ apply stats_token_raised | apply stats_connection_raised
          | apply stats_statement_raised | apply stats_query_raised ];
    assumption.
  - rewrite while_rs_next_appends. simpl.
    destruct (Engine.run_query _ _) as [|row rows] eqn:Hrows; simpl.
    + observe. rewrite !Nat.eqb_refl. simpl.
      repeat split; auto; try (eexists; extends);
        try (intros h Hh; repeat (apply remove_handle_subset in Hh); simpl in Hh; auto).
      pose proof (@stats_applied config w []) as H. simpl in H.
      unfold statistics_query in H. rewrite Hrows in H. apply H. reflexivity.
    + match goal with
      | |- context [for_cmd_in ?s ?cs ?w1] =>
          destruct (for_cmd_in_runs s cs w1) as (outs & w' & Hrun & Hm & Hh & Hl & Hr)
      end.
      rewrite Hrun. simpl.
      destruct Hr as (Hc & Hst & Hn & Hfa & Hto). simpl in *.
      erewrite new_events_extension by (simpl; rewrite Hh; simpl; extends).
      erewrite new_lines_extension by (simpl; rewrite Hl; simpl; extends).
      simpl. rewrite !rev_app_distr, !rev_involutive. simpl.
      rewrite Hc, Hst, Hfa. simpl. rewrite !Nat.eqb_refl. simpl.
      repeat split; auto;
        try (intros h Hin; repeat (apply remove_handle_subset in Hin); simpl in Hin; auto).
      * pose proof (@stats_applied config w outs) as H. simpl in H.
        unfold statistics_query in H. rewrite Hrows in H. simpl in H.
        rewrite <- !app_assoc in *. simpl in *. apply H. exact Hm.
      * eexists. rewrite Hh. simpl. extends.
      * eexists. rewrite Hl. simpl. extends.
Qed.

(** ** The two phases of a refresh *)

Lemma refresh_external_table_phases g config w :
  refresh_external_table g config w =
  match steps_result g config w with
  | Ok _ =>
      if table_created (steps_frame g config w)
      then create_statistics_for_external_table config (steps_world g config w)
      else print SkippingStatistics (steps_world g config w)
  | Raise e => (Raise e, steps_world g config w)
  end.
Proof.
  unfold steps_result, steps_frame, steps_world, refresh_external_table,
    call_function, bind, local, lift.
  destruct (refresh_steps g config (new_frame, w)) as [[[]|e] [f w1]]; simpl;
    [destruct (table_created f); simpl|]; try reflexivity.
  destruct (create_statistics_for_external_table config w1); reflexivity.
Qed.

Ltac run_steps :=
  unfold step_events, steps_result, steps_frame, steps_world;
  unfold_all; simpl; repeat fork; observe.

Lemma steps_ok_created g config w :
  steps_result g config w = Ok tt -> table_created (steps_frame g config w) = true.
Proof. run_steps; congruence. Qed.

(** The statistics phase runs exactly when steps 1-4 raised nothing; the
    branch that prints [SkippingStatistics] is never taken. *)
Lemma refresh_external_table_run g config w :
  refresh_external_table g config w =
  match steps_result g config w with
  | Ok _ => create_statistics_for_external_table config (steps_world g config w)
  | Raise e => (Raise e, steps_world g config w)
  end.
Proof.
  rewrite refresh_external_table_phases.
  destruct (steps_result g config w) as [[]|e] eqn:Hr; [|reflexivity].
  rewrite (steps_ok_created _ _ _ Hr). reflexivity.
Qed.

Lemma steps_extend g config w :
  exists l, w_history (steps_world g config w) = l ++ w_history w.
Proof. run_steps; eexists; extends. Qed.

Lemma steps_log_extend g config w :
  exists l, w_log (steps_world g config w) = l ++ w_log w.
Proof. run_steps; eexists; extends. Qed.

Lemma history_extension w w' :
  (exists l, w_history w' = l ++ w_history w) ->
  history w' = history w ++ new_events w w'.
Proof.
  intros [l H]. rewrite (new_events_extension _ _ _ H).
  unfold history. rewrite H. apply rev_app_distr.
Qed.

Lemma printed_extension w w' :
  (exists l, w_log w' = l ++ w_log w) ->
  printed w' = printed w ++ new_lines w w'.
Proof.
  intros [l H]. rewrite (new_lines_extension _ _ _ H).
  unfold printed. rewrite H. apply rev_app_distr.
Qed.

Lemma steps_resources g config w :
  (forall h, In h (w_connections (steps_world g config w)) -> In h (w_connections w)) /\
  (forall h, In h (w_statements (steps_world g config w)) -> In h (w_statements w)) /\
  w_fault (steps_world g config w) = w_fault w /\
  w_token (steps_world g config w) = w_token w.
Proof.
  run_steps; rewrite ?Nat.eqb_refl; simpl; repeat split; auto;
    intros h Hh; repeat (apply remove_handle_subset in Hh); 
    simpl in Hh; auto.
Qed.
Lemma steps_connection_discipline g config w :
  released (step_events g config w) = acquired (step_events g config w) /\
  NoDup (acquired (step_events g config w)) /\
  Forall (fun h => w_next_handle w <= h < w_next_handle (steps_world g config w))
    (flat_map handles_of (step_events g config w)).
Proof.
  run_steps; repeat split; try reflexivity;
    repeat constructor; simpl; try lia; tauto.
Qed.

Lemma acquired_app l1 l2 : acquired (l1 ++ l2) = acquired l1 ++ acquired l2.
Proof. apply flat_map_app. Qed.

Lemma released_app l1 l2 : released (l1 ++ l2) = released l1 ++ released l2.
Proof. apply flat_map_app. Qed.

Lemma acquired_executed s outs : acquired (map (executed_by s) outs) = [].
Proof. induction outs as [|p outs IH]; simpl; auto. Qed.

Lemma released_executed s outs : released (map (executed_by s) outs) = [].
Proof. induction outs as [|p outs IH]; simpl; auto. Qed.

Lemma handles_executed s outs h :
  In h (flat_map handles_of (map (executed_by s) outs)) -> h = s.
Proof.
  induction outs as [|p outs IH]; simpl; [tauto|].
  intros [H|H]; auto.
Qed.

(** What every run of the statistics phase has in common. *)
Lemma statistics_run_discipline config w r evs lines :
  statistics_run config w r evs lines ->
  released evs = acquired evs /\
  NoDup (acquired evs) /\
  (forall h, In h (flat_map handles_of evs) -> w_next_handle w <= h) /\
  (forall c o, In (c, o) evs -> is_statement_call c = true ->
               acquired evs = [w_next_handle w]) /\
  ~ In SkippingStatistics lines.
Proof.
  intros H. destruct H; simpl.
  all: rewrite ?released_app, ?acquired_app, ?released_executed, ?acquired_executed; simpl.
  all: repeat split; repeat constructor; simpl; try tauto.
  all: try (intros h Hh; intuition (subst; lia)).
  all: try (intros c0 o Hin Hc; intuition (try discriminate);
            match goal with H : (_, _) = (_, _) |- _ => inversion H; subst; discriminate end).
  all: try (intros Hk; intuition discriminate).
  - intros h [Hh|[Hh|[Hh|[Hh|Hh]]]]; subst; try (subst c s; lia).
    rewrite flat_map_app in Hh. apply in_app_or in Hh. destruct Hh as [Hh|Hh].
    + apply handles_executed in Hh. subst. subst c s. lia.
    + simpl in Hh. subst c s. lia.
  - intros [Hk|Hk]; [destruct rows; discriminate|].
    apply in_app_or in Hk. destruct Hk as [Hk|[Hk|[]]]; [|discriminate].
    apply in_map_iff in Hk. destruct Hk as ([cmd o] & Hk & _).
    unfold reported, report in Hk. destruct o; discriminate.
Qed.
Lemma new_events_same w : new_events w w = [].
Proof. unfold new_events. rewrite Nat.sub_diag. reflexivity. Qed.

Lemma new_lines_same w : new_lines w w = [].
Proof. unfold new_lines. rewrite Nat.sub_diag. reflexivity. Qed.

Lemma acquired_mentioned evs h : In h (acquired evs) -> In h (flat_map handles_of evs).
Proof.
  induction evs as [|[c o] evs IH]; simpl; [tauto|].
  intros H. apply in_or_app. apply in_app_or in H. destruct H as [H|H]; [left|auto].
  destruct c, o; simpl in *; tauto.
Qed.

(** The events of the statistics phase, by the result of steps 1-4. *)
Lemma statistics_events_run g config w :
  match steps_result g config w with
  | Ok _ =>
      exists r lines,
        statistics_run config (steps_world g config w) r
          (statistics_events g config w) lines
  | Raise _ => statistics_events g config w = []
  end.
Proof.
  unfold statistics_events. rewrite refresh_external_table_run.
  destruct (steps_result g config w) as [[]|e]; simpl.
  - destruct (statistics_phase config (steps_world g config w)) as (H & _).
    eauto.
  - apply new_events_same.
Qed.

Lemma refresh_history g config w :
  history (snd (refresh_external_table g config w)) =
  history w ++ step_events g config w ++ statistics_events g config w.
Proof.
  unfold statistics_events, step_events.
  rewrite app_assoc, <- (history_extension _ _ (steps_extend g config w)).
  apply history_extension.
  rewrite refresh_external_table_run.
  destruct (steps_result g config w) as [[]|e]; simpl.
  - apply statistics_phase.
  - exists []. reflexivity.
Qed.

Transparent Engine.run_statement Engine.remove_path.

Lemma oid_eqb_refl id : Engine.oid_eqb id id = true.
Proof. unfold Engine.oid_eqb. rewrite !String.eqb_refl. reflexivity. Qed.

Lemma oid_eqb_eq a b : Engine.oid_eqb a b = true <-> a = b.
Proof.
  unfold Engine.oid_eqb. destruct a as [a1 a2], b as [b1 b2]. simpl.
  rewrite andb_true_iff, !String.eqb_eq. split.
  - intros [-> ->]. reflexivity.
  - intros H. inversion H. auto.
Qed.

Lemma removed_object_absent id c :
  Engine.has_external_table id (Engine.remove_object id c) = false.
Proof.
  unfold Engine.has_external_table, Engine.sys_external_tables, Engine.remove_object.
  simpl. apply not_true_is_false. intros H.
  apply existsb_exists in H. destruct H as (o & Hin & Heq).
  apply filter_In in Hin. destruct Hin as (Hin & _).
  apply filter_In in Hin. destruct Hin as (_ & Hne).
  rewrite Heq in Hne. discriminate.
Qed.

Lemma drop_leaves_table_absent t d d' :
  Engine.run_statement (DropExternalTable t) d = inl d' ->
  Engine.has_external_table (Engine.resolve t) (Engine.db_catalog d') = false.
Proof.
  simpl. destruct (Engine.has_external_table _ _); [|discriminate].
  intros H. inversion H. simpl. apply removed_object_absent.
Qed.

Lemma remove_path_keeps_catalog p d :
  Engine.db_catalog (fst (Engine.remove_path p d)) = Engine.db_catalog d.
Proof. reflexivity. Qed.

Opaque Engine.run_statement Engine.remove_path.

Ltac split_in H :=
  simpl in H; repeat (destruct H as [H|H]);
  try contradiction; try (inversion H; subst; clear H).

Lemma steps_abort g config w c e :
  In (c, Raised e) (step_events g config w) ->
  steps_result g config w = Raise e /\
  exists closes,
    after_first_error (step_events g config w) = Some ((c, Raised e), closes) /\
    only_closes closes = true.
Proof.
  revert c e. run_steps; intros c e' Hin; split_in Hin;
    (split; [reflexivity|eexists; split; reflexivity]).
Qed.

Lemma steps_no_rollback g config w s1 s2 e :
  In (Execute s1 (DropExternalTable (external_table config)), Returned)
    (step_events g config w) ->
  In (Execute s2 (cetas_sql g), Raised e) (step_events g config w) ->
  table_present config (steps_world g config w) = false.
Proof.
  unfold table_present. revert s1 s2 e.
  run_steps; intros s1 s2 e' Hdrop Hcreate;
    split_in Hcreate; split_in Hdrop;
    repeat match goal with
           | H : Engine.remove_path ?p ?d = _ |- _ =>
               let K := fresh in
               pose proof (remove_path_keeps_catalog p d) as K;
               rewrite H in K; simpl in K; rewrite ?K; clear H
           end;
    eauto using drop_leaves_table_absent.
Qed.
Transparent Engine.run_query.

Lemma rs_next_exists name c :
  rs_next (Engine.run_query (SelectExternalTablesNamed name) c) =
  existsb (fun o => String.eqb (Engine.o_name o) name) (Engine.sys_external_tables c).
Proof.
  simpl. unfold Engine.external_tables_named.
  induction (Engine.sys_external_tables c) as [|o l IH]; simpl; [reflexivity|].
  destruct (String.eqb (Engine.o_name o) name); simpl; auto.
Qed.

Lemma run_existence_query name c :
  Engine.run_query (SelectExternalTablesNamed name) c
  = map (fun _ => Text "1") (Engine.external_tables_named name c).
Proof. reflexivity. Qed.

Lemma statistics_commands_only name c :
  Forall (fun s => exists a b d e, s = CreateStatistics a b d e)
    (Engine.run_query (SelectCreateStatisticsCommands name) c).
Proof.
  simpl. apply Forall_forall. intros s Hin.
  apply in_map_iff in Hin. destruct Hin as (r & <- & _).
  unfold Engine.cmd_create. eauto.
Qed.

Opaque Engine.run_query.

Ltac spared Hsp :=
  match goal with
  | H : w_fault _ _ ?c = Some _ |- _ =>
      rewrite (Hsp _ c) in H by reflexivity; discriminate H
  end.

Lemma steps_drop g config w :
  is_cetas (cetas_sql g) = true ->
  spares (fun c => negb (is_drop c || is_create c)) w ->
  let calls := map fst (step_events g config w) in
  if pre_exists config w
  then exists before after s,
      calls = before ++ Execute s (DropExternalTable (external_table config)) :: after /\
      existsb is_drop before = false /\
      existsb is_cleanup before = false /\
      existsb is_drop after = false
  else existsb is_drop calls = false /\
       In (FsRm (materialized_table_output_path config) true) calls /\
       exists s, In (Execute s (cetas_sql g)) calls.
Proof.
  intros Hc Hsp. unfold pre_exists. rewrite <- rs_next_exists.
  destruct g as [C text]. simpl in Hc. destruct text; try discriminate.
  run_steps; try spared Hsp.
  all: first
    [ exists [GetToken "DW";
              GetConnection (jdbc_url config) (props_of w);
              CreateStatement (w_next_handle w);
              ExecuteQuery (S (w_next_handle w))
                (SelectExternalTablesNamed (PyStr.unqualified (external_table config)))];
      do 2 eexists; repeat split; reflexivity
    | split; [reflexivity|split];
      [ repeat (first [left; reflexivity | right])
      | eexists; repeat (first [left; reflexivity | right]) ] ].
Qed.

Lemma executed_calls s outs :
  map fst (map (executed_by s) outs) = map (Execute s) (map fst outs).
Proof. rewrite !map_map. reflexivity. Qed.

Lemma statistics_run_no_step_calls config w r evs lines :
  statistics_run config w r evs lines ->
  existsb is_drop (map fst evs) = false /\
  existsb is_cleanup (map fst evs) = false /\
  existsb is_create (map fst evs) = false.
Proof.
  intros H. destruct H; simpl; auto.
  rewrite map_app, executed_calls, !existsb_app. simpl.
  rewrite !orb_false_r.
  pose proof (statistics_commands_only
                (PyStr.unqualified (external_table config))
                (Engine.db_catalog (w_db w))) as Hall.
  fold (statistics_query config) in Hall. fold rows in Hall.
  rewrite H. clear H.
  induction Hall as [|cmd rest (a & b & d & e & ->) _ IH]; simpl; auto.
Qed.

Lemma statistics_events_no_step_calls g config w :
  existsb is_drop (map fst (statistics_events g config w)) = false /\
  existsb is_cleanup (map fst (statistics_events g config w)) = false /\
  existsb is_create (map fst (statistics_events g config w)) = false.
Proof.
  pose proof (statistics_events_run g config w) as H.
  destruct (steps_result g config w).
  - destruct H as (r & lines & H).
    apply (statistics_run_no_step_calls _ _ _ _ _ H).
  - rewrite H. auto.
Qed.

Lemma refresh_calls_phases g config w :
  refresh_calls g config w =
  map fst (step_events g config w) ++ map fst (statistics_events g config w).
Proof. exact (map_app fst _ _). Qed.


(** ** Statistics application *)

Lemma spares_after_steps p g config w :
  spares p w -> spares p (steps_world g config w).
Proof.
  unfold spares. intros H h c Hc.
  destruct (steps_resources g config w) as (_ & _ & Hf & _).
  rewrite Hf. auto.
Qed.

Lemma statistics_run_spared config w r evs lines :
  spares (fun c => negb (is_statistics_command c)) w ->
  statistics_run config w r evs lines ->
  exists outs,
    r = Ok tt /\
    map fst outs = Engine.run_query (statistics_query config) (Engine.db_catalog (w_db w)) /\
    evs = [(GetToken "DW", ReturnedText (w_token w));
           (GetConnection (jdbc_url config) (props_of w), ReturnedHandle (w_next_handle w));
           (CreateStatement (w_next_handle w), ReturnedHandle (S (w_next_handle w)));
           (ExecuteQuery (S (w_next_handle w)) (statistics_query config),
            ReturnedRows (map fst outs))]
          ++ map (executed_by (S (w_next_handle w))) outs
          ++ [(CloseStatement (S (w_next_handle w)), Returned);
              (CloseConnection (w_next_handle w), Returned)] /\
    lines = (match map fst outs with
             | [] => NoStatistics (PyStr.unqualified (external_table config))
             | _ :: _ => CreatingStatistics (length outs)
                           (PyStr.unqualified (external_table config))
             end) :: map reported outs ++ [StatisticsCompleted].
Proof.
  intros Hsp H. destruct H as [e H|e H|e c H|e c s H|outs c s rows H];
    try (rewrite Hsp in H by reflexivity; discriminate H).
  exists outs. subst c s rows. rewrite H.
  repeat split; auto.
  rewrite <- H, length_map. reflexivity.
Qed.

(** C1. When only statistics commands can be made to raise and steps 1-4 have
    succeeded: whichever of the planned commands raise, the refresh returns
    normally; every planned command is executed once, in the order of the
    plan, each with an outcome of its own, between the query that plans them
    and the release of the statement; one line is printed per command; and
    every command that raised is printed as failed with its reason. *)
Theorem statistics_failures_isolated g config w :
  spares (fun c => negb (is_statistics_command c)) w ->
  steps_result g config w = Ok tt ->
  let w1 := steps_world g config w in
  let final := snd (refresh_external_table g config w) in
  let c := w_next_handle w1 in
  let s := S c in
  exists outs : list (sql * outcome),
    fst (refresh_external_table g config w) = Ok tt /\
    map fst outs =
      Engine.run_query (statistics_query config) (Engine.db_catalog (w_db w1)) /\
    statistics_events g config w =
      [(GetToken "DW", ReturnedText (w_token w1));
       (GetConnection (jdbc_url config) (props_of w1), ReturnedHandle c);
       (CreateStatement c, ReturnedHandle s);
       (ExecuteQuery s (statistics_query config), ReturnedRows (map fst outs))]
      ++ map (executed_by s) outs
      ++ [(CloseStatement s, Returned); (CloseConnection c, Returned)] /\
    new_lines w1 final =
      (match map fst outs with
       | [] => NoStatistics (PyStr.unqualified (external_table config))
       | _ :: _ => CreatingStatistics (length outs)
                     (PyStr.unqualified (external_table config))
       end) :: map reported outs ++ [StatisticsCompleted] /\
    (forall cmd e, In (cmd, Raised e) outs -> In (Failed cmd e) (new_lines w1 final)).
Proof.
  intros Hsp Hok w1 final c s. subst final. unfold statistics_events.
  rewrite refresh_external_table_run, Hok. fold w1.
  destruct (statistics_phase config w1) as (Hrun & _).
  apply (statistics_run_spared _ _ _ _ _ (spares_after_steps _ g config w Hsp)) in Hrun.
  destruct Hrun as (outs & Hr & Hplan & Hevs & Hlines).
  exists outs. repeat split; auto.
  intros cmd e Hin. rewrite Hlines. right. apply in_or_app. left.
  apply in_map_iff. exists (cmd, Raised e). auto.
Qed.

(** ** The skipped statistics phase *)

Lemma steps_lines_no_skip g config w :
  ~ In SkippingStatistics (new_lines w (steps_world g config w)).
Proof.
  run_steps; intros H; repeat (destruct H as [H|H]; [discriminate H|]); exact H.
Qed.

Lemma new_lines_trans w w1 w2 :
  (exists l, w_log w1 = l ++ w_log w) ->
  (exists l, w_log w2 = l ++ w_log w1) ->
  new_lines w w2 = new_lines w w1 ++ new_lines w1 w2.
Proof.
  intros [l1 H1] [l2 H2].
  rewrite (new_lines_extension _ _ _ H1), (new_lines_extension _ _ _ H2).
  rewrite H1, app_assoc in H2.
  rewrite (new_lines_extension _ _ _ H2). apply rev_app_distr.
Qed.

(** No run of a refresh prints the notice that statistics were skipped. *)
Lemma skip_notice_never_printed g config w :
  ~ In SkippingStatistics (new_lines w (snd (refresh_external_table g config w))).
Proof.
  rewrite refresh_external_table_run.
  destruct (steps_result g config w) as [[]|e].
  - destruct (statistics_phase config (steps_world g config w))
      as (Hrun & _ & Hlog & _).
    rewrite (new_lines_trans _ _ _ (steps_log_extend g config w) Hlog).
    intros H. apply in_app_or in H. destruct H as [H|H].
    + exact (steps_lines_no_skip g config w H).
    + apply statistics_run_discipline in Hrun. tauto.
  - apply steps_lines_no_skip.
Qed.

(** C2. In every run whose create statement raises: the error is returned to
    the caller and the statistics phase makes no call at all, but the notice
    that statistics were skipped is not among the lines printed. *)
Theorem failed_create_skips_statistics_unreported g config w s e :
  is_cetas (cetas_sql g) = true ->
  In (Execute s (cetas_sql g), Raised e) (step_events g config w) ->
  fst (refresh_external_table g config w) = Raise e /\
  statistics_events g config w = [] /\
  existsb is_statistics_command (refresh_calls g config w) = false /\
  ~ In SkippingStatistics (new_lines w (snd (refresh_external_table g config w))).
Proof.
  intros Hc Hin. destruct (steps_abort g config w _ _ Hin) as (Hr & _).
  pose proof (statistics_events_run g config w) as Hstat. rewrite Hr in Hstat.
  repeat split.
  - rewrite refresh_external_table_run, Hr. reflexivity.
  - exact Hstat.
  - rewrite refresh_calls_phases, Hstat, app_nil_r. clear - Hc.
    destruct g as [C text]. simpl in Hc. destruct text; try discriminate.
    run_steps; reflexivity.
  - apply skip_notice_never_printed.
Qed.
(** ** Errors in steps 1-4 *)


(** ** The functions one by one *)

(** C10. The statement that the create step executes is the one built when
    the configuration cell ran, from the table name [CONFIG] had then; neither
    a later value of [CONFIG] nor the [config] argument changes it: two calls
    that differ only in their [config] argument make the same call with the
    same outcome, return the same result and leave the same database. *)
Theorem cetas_sql_fixed_at_definition cfg0 text cfg_later s config config' w :
  let g := rebind_CONFIG cfg_later (configuration_cell cfg0 text) in
  let statement :=
    CreateExternalTableAsSelect (external_table cfg0) (with_location text)
      (with_data_source text) (with_file_format text) (as_select text) in
  let R := create_external_table g s config w in
  let R' := create_external_table g s config' w in
  cetas_sql g = statement /\
  (exists o, new_events w (snd R) = [(Execute s statement, o)]) /\
  fst R = fst R' /\
  w_history (snd R) = w_history (snd R') /\
  w_db (snd R) = w_db (snd R').
Proof.
  unfold_all. simpl. repeat fork; observe; repeat split; eauto.
Qed.

Lemma some_filtered {A} (p : A -> bool) (l : list A) :
  negb (Nat.eqb (length (filter p l)) 0) = existsb p l.
Proof.
  induction l as [|x l IH]; simpl; [reflexivity|].
  destruct (p x); simpl; auto.
Qed.

Lemma nothing_left_under path files :
  existsb (Engine.under path)
    (filter (fun f => negb (Engine.under path f)) files) = false.
Proof.
  induction files as [|f files IH]; simpl; [reflexivity|].
  destruct (Engine.under path f) eqn:H; simpl; auto.
  rewrite H. auto.
Qed.

Transparent Engine.remove_path.

Lemma remove_path_result path d :
  Engine.remove_path path d =
  (Engine.with_files d
     (filter (fun f => negb (Engine.under path f)) (Engine.db_files d)),
   existsb (Engine.under path) (Engine.db_files d)).
Proof.
  unfold Engine.remove_path. f_equal. apply some_filtered.
Qed.

Opaque Engine.remove_path.

(** C8 as amended. [delete_adls_path] returns no value.  When the storage
    call is not made to raise, it returns normally whether or not anything
    was under the path, prints that the path was deleted exactly when
    something was, and leaves nothing under the path; when the storage call
    raises, that error is what it raises, and the store is as it was. *)
Theorem delete_adls_path_outcomes path w :
  let R := delete_adls_path path w in
  match w_fault w (w_history w) (FsRm path true) with
  | None =>
      fst R = Ok tt /\
      new_lines w (snd R) =
        [if existsb (Engine.under path) (Engine.db_files (w_db w))
         then DeletedPath path else PathNotFound path] /\
      existsb (Engine.under path) (Engine.db_files (w_db (snd R))) = false /\
      Engine.db_catalog (w_db (snd R)) = Engine.db_catalog (w_db w)
  | Some e =>
      fst R = Raise e /\ new_lines w (snd R) = [] /\ w_db (snd R) = w_db w
  end.
Proof.
  unfold delete_adls_path, fs_rm, external, bind, print. simpl.
  destruct (w_fault w (w_history w) (FsRm path true)) as [e|]; simpl.
  - observe. auto.
  - rewrite (remove_path_result path (w_db w)). simpl.
    destruct (existsb (Engine.under path) (Engine.db_files (w_db w))); simpl;
      observe; repeat split; auto using nothing_left_under.
Qed.
(** ** The effect of a refresh on the database *)

Lemma for_cmd_in_db s commands :
  forall w, no_fault w ->
    w_db (snd (for_cmd_in s commands w)) = fold_left attempt commands (w_db w).
Proof.
  induction commands as [|cmd rest IH]; intros w Hnf; [reflexivity|].
  rewrite for_cmd_in_cons.
  unfold bind at 1. unfold try_except, bind, execute, external, print.
  rewrite (Hnf _ _ eq_refl). simpl. unfold attempt at 2.
  destruct (Engine.run_statement cmd (w_db w)) as [d|e]; simpl;
    rewrite IH; auto; intros h c _; apply (Hnf h c eq_refl).
Qed.

Lemma statistics_phase_db config w :
  no_fault w ->
  fst (create_statistics_for_external_table config w) = Ok tt /\
  w_db (snd (create_statistics_for_external_table config w))
  = statistics_db config (w_db w).
Proof.
  intros Hnf. unfold statistics_db.
  unfold_all. simpl. unfold statistics_query.
  repeat (rewrite (Hnf _ _ eq_refl); simpl).
  rewrite while_rs_next_appends. simpl.
  destruct (Engine.run_query _ _) as [|row rows] eqn:Hrows; simpl; [auto|].
  match goal with
  | |- context [for_cmd_in ?s ?cs ?w1] =>
      pose proof (for_cmd_in_db s cs w1) as Hdb;
      destruct (for_cmd_in_runs s cs w1) as (outs & w' & Hrun & _)
  end.
  rewrite Hrun in *. simpl in *. split; [reflexivity|].
  apply Hdb. intros h c _. apply (Hnf h c eq_refl).
Qed.

Arguments steps_db : simpl never.

Lemma steps_db_correct g config w :
  no_fault w ->
  w_db (steps_world g config w) = fst (steps_db g config (w_db w)) /\
  (snd (steps_db g config (w_db w)) = true -> steps_result g config w = Ok tt) /\
  (snd (steps_db g config (w_db w)) = false -> steps_result g config w <> Ok tt).
Proof.
  intros Hnf.
  run_steps; try spared Hnf; unfold steps_db;
    repeat match goal with
           | H : Engine.run_query _ _ = _ |- _ => rewrite H; clear H
           end; simpl;
    repeat match goal with
           | H : Engine.run_statement _ _ = _ |- _ => rewrite H; clear H; simpl
           | H : Engine.remove_path _ _ = _ |- _ => rewrite H; clear H; simpl
           end; repeat split; auto; congruence.
Qed.

Lemma refresh_db_correct g config w :
  no_fault w ->
  w_db (snd (refresh_external_table g config w)) = refresh_db g config (w_db w) /\
  (snd (steps_db g config (w_db w)) = true ->
   fst (refresh_external_table g config w) = Ok tt) /\
  no_fault (snd (refresh_external_table g config w)).
Proof.
  intros Hnf. destruct (steps_db_correct g config w Hnf) as (Hdb & Hres & Hfail).
  unfold refresh_db. rewrite refresh_external_table_run.
  destruct (steps_db g config (w_db w)) as [d3 created]. simpl in *.
  assert (Hnf1 : no_fault (steps_world g config w))
    by (apply spares_after_steps; exact Hnf).
  destruct created.
  - rewrite (Hres eq_refl).
    destruct (statistics_phase_db config (steps_world g config w) Hnf1) as (Hok & Hd).
    rewrite Hd, Hdb. repeat split; auto.
    destruct (statistics_phase config (steps_world g config w))
      as (_ & _ & _ & _ & _ & Hf).
    intros h c Hc. rewrite Hf. apply (Hnf1 h c Hc).
  - destruct (steps_result g config w) as [[]|e]; [exfalso; apply Hfail; auto|].
    simpl. repeat split; auto; discriminate.
Qed.
(** ** Repeating a refresh *)

Lemma prefix_trans a : forall b c,
  String.prefix a b = true -> String.prefix b c = true -> String.prefix a c = true.
Proof.
  induction a as [|x a IH]; intros b c Hab Hbc; [destruct c; reflexivity|].
  destruct b as [|y b]; [discriminate|]. destruct c as [|z c]; [discriminate|].
  simpl in *. destruct (ascii_dec x y); [subst|discriminate].
  destruct (ascii_dec y z); [|discriminate]. eauto.
Qed.

Lemma prefix_append a : forall x, String.prefix a (a ++ x) = true.
Proof.
  induction a as [|c a IH]; intros x; simpl; [destruct x; reflexivity|].
  destruct (ascii_dec c c); [apply IH|congruence].
Qed.

Lemma filter_all {A} (p : A -> bool) (l : list A) :
  (forall x, In x l -> p x = true) -> filter p l = l.
Proof.
  induction l as [|x l IH]; intros H; simpl; [reflexivity|].
  rewrite (H x (or_introl eq_refl)), IH; auto. intros y Hy. apply H. right. exact Hy.
Qed.

Lemma filter_none {A} (p : A -> bool) (l : list A) :
  (forall x, In x l -> p x = false) -> filter p l = [].
Proof.
  induction l as [|x l IH]; intros H; simpl; [reflexivity|].
  rewrite (H x (or_introl eq_refl)), IH; auto. intros y Hy. apply H. right. exact Hy.
Qed.

Lemma filter_filter_same {A} (p : A -> bool) (l : list A) :
  filter p (filter p l) = filter p l.
Proof.
  apply filter_all. intros x Hx. apply filter_In in Hx. tauto.
Qed.

Lemma last_is_head_of_rev (l : list string) d :
  List.last l d = match rev l with x :: _ => x | [] => d end.
Proof.
  destruct (rev l) as [|x r] eqn:H.
  - apply (f_equal (@rev string)) in H. rewrite rev_involutive in H. subst. reflexivity.
  - apply (f_equal (@rev string)) in H. rewrite rev_involutive in H. subst.
    simpl. apply last_last.
Qed.

Transparent PyStr.unqualified.

Lemma resolved_name t : snd (Engine.resolve t) = PyStr.unqualified t.
Proof.
  unfold Engine.resolve, PyStr.unqualified, PyStr.last_item.
  rewrite last_is_head_of_rev.
  destruct (rev (PyStr.split "." t)) as [|x [|y r]]; reflexivity.
Qed.

Opaque PyStr.unqualified.

Section Repeat.

Variable g : notebook.
Variable config : config.

Lemma id_name : snd (target config) = PyStr.unqualified (external_table config).
Proof. apply resolved_name. Qed.

Lemma named_object_is_target c o :
  name_is_targets config c = true ->
  In o (Engine.sys_objects c) ->
  Engine.o_name o = (PyStr.unqualified (external_table config)) ->
  Engine.o_object_id o = target config /\ Engine.o_type o = Engine.ExternalTable.
Proof.
  unfold name_is_targets. rewrite forallb_forall. intros H Hin Hn.
  specialize (H o Hin). rewrite Hn, String.eqb_refl in H.
  apply andb_true_iff in H. destruct H as (H1 & H2).
  apply oid_eqb_eq in H1. split; [exact H1|].
  destruct (Engine.o_type o); [reflexivity|discriminate].
Qed.

Lemma found_iff d :
  found config d = true <->
  exists o, In o (Engine.sys_objects (Engine.db_catalog d))
            /\ Engine.o_type o = Engine.ExternalTable /\ Engine.o_name o = PyStr.unqualified (external_table config).
Proof.
  unfold found. rewrite rs_next_exists, existsb_exists.
  unfold Engine.sys_external_tables. split.
  - intros (o & Hin & Hn). apply filter_In in Hin. destruct Hin as (Hin & Ht).
    exists o. repeat split; auto.
    + destruct (Engine.o_type o); [reflexivity|discriminate].
    + apply String.eqb_eq. exact Hn.
  - intros (o & Hin & Ht & Hn). exists o. split.
    + apply filter_In. rewrite Ht. auto.
    + apply String.eqb_eq. exact Hn.
Qed.

Lemma found_has_target d :
  name_is_targets config (Engine.db_catalog d) = true ->
  found config d = true ->
  Engine.has_external_table (target config) (Engine.db_catalog d) = true.
Proof.
  intros Hn Hf. apply found_iff in Hf. destruct Hf as (o & Hin & Ht & Hname).
  destruct (named_object_is_target _ _ Hn Hin Hname) as (Hid & _).
  unfold Engine.has_external_table, Engine.sys_external_tables.
  apply existsb_exists. exists o. split.
  - apply filter_In. rewrite Ht. auto.
  - rewrite Hid. apply oid_eqb_refl.
Qed.

Lemma not_found_no_target d :
  name_is_targets config (Engine.db_catalog d) = true ->
  found config d = false ->
  Engine.has_object (target config) (Engine.db_catalog d) = false.
Proof.
  intros Hn Hf. apply not_true_is_false. intros H.
  unfold Engine.has_object in H. apply existsb_exists in H.
  destruct H as (o & Hin & Hid). apply oid_eqb_eq in Hid.
  assert (Hname : Engine.o_name o = (PyStr.unqualified (external_table config))).
  { rewrite <- id_name, <- Hid. reflexivity. }
  destruct (named_object_is_target _ _ Hn Hin Hname) as (_ & Ht).
  assert (Hfound : found config d = true)
    by (apply found_iff; exists o; auto).
  congruence.
Qed.

Lemma removed_has_no_object c :
  Engine.has_object (target config) (Engine.remove_object (target config) c) = false.
Proof.
  unfold Engine.has_object, Engine.remove_object. simpl.
  apply not_true_is_false. intros H. apply existsb_exists in H.
  destruct H as (o & Hin & Heq). apply filter_In in Hin.
  destruct Hin as (_ & Hne). rewrite Heq in Hne. discriminate.
Qed.

Lemma nothing_to_remove c :
  catalog_wf c = true ->
  Engine.has_object (target config) c = false ->
  Engine.remove_object (target config) c = c.
Proof.
  intros Hwf Hno. unfold catalog_wf in Hwf.
  apply andb_true_iff in Hwf. destruct Hwf as (Hwf & H3).
  apply andb_true_iff in Hwf. destruct Hwf as (H1 & H2).
  rewrite forallb_forall in H1, H2, H3.
  assert (Hne : forall i, Engine.has_object i c = true ->
                          Engine.oid_eqb i (target config) = false).
  { intros i Hi. apply not_true_is_false. intros Heq.
    apply oid_eqb_eq in Heq. subst i. congruence. }
  unfold Engine.remove_object. destruct c as [objs cols scs sts]. simpl in *.
  f_equal; apply filter_all; intros x Hx.
  - apply negb_true_iff. apply Hne.
    unfold Engine.has_object. simpl. apply existsb_exists.
    exists x. split; [exact Hx|apply oid_eqb_refl].
  - apply negb_true_iff. auto.
  - apply negb_true_iff. auto.
  - apply negb_true_iff. auto.
Qed.

Lemma location_clear path folder files :
  String.prefix (Engine.directory path) (Engine.directory folder) = true ->
  existsb (Engine.under folder)
    (filter (fun f => negb (Engine.under path f)) files) = false.
Proof.
  intros Hp. apply not_true_is_false. intros H. apply existsb_exists in H.
  destruct H as (f & Hin & Hu). apply filter_In in Hin. destruct Hin as (_ & Hn).
  unfold Engine.under in *. rewrite (prefix_trans _ _ _ Hp Hu) in Hn. discriminate.
Qed.

Transparent Engine.run_statement.

Lemma steps_db_creates d :
  name_is_targets config (Engine.db_catalog d) = true ->
  consistent g config d = true ->
  found config d = true \/ catalog_wf (Engine.db_catalog d) = true ->
  steps_db g config d = (created_db g config d, true).
Proof.
  intros Hn Hc Hw. unfold steps_db, created_db, consistent in *.
  fold (found config d).
  destruct (cetas_sql g) as [|t loc ds ff sel| |]; try discriminate.
  apply andb_true_iff in Hc. destruct Hc as (Ht & Hc).
  apply oid_eqb_eq in Ht. fold (target config) in Ht |- *.
  destruct (Engine.lookup_data_source ds d) as [root|] eqn:Hds; [|discriminate].
  assert (Hd1 : exists d1,
             (if found config d
              then Engine.run_statement (DropExternalTable (external_table config)) d
              else inl d) = inl d1 /\
             Engine.db_catalog d1 = Engine.remove_object (target config) (Engine.db_catalog d) /\
             Engine.db_files d1 = Engine.db_files d /\
             Engine.db_data_sources d1 = Engine.db_data_sources d).
  { destruct (found config d) eqn:Hf.
    - simpl. fold (target config).
      rewrite (found_has_target d Hn Hf). eexists. split; [reflexivity|]. auto.
    - exists d. repeat split; auto. symmetry. apply nothing_to_remove.
      + destruct Hw; [discriminate|assumption].
      + apply not_found_no_target; assumption. }
  destruct Hd1 as (d1 & -> & Hcat & Hfiles & Hsrc).
  rewrite remove_path_result. simpl.
  rewrite Ht, Hcat, removed_has_no_object.
  unfold Engine.lookup_data_source in *. simpl. rewrite Hsrc, Hds.
  rewrite Hfiles, (location_clear _ _ _ Hc). reflexivity.
Qed.

Lemma same_off_target_refl d : same_off_target config d d.
Proof. unfold same_off_target. auto. Qed.

Lemma same_off_target_trans d1 d2 d3 :
  same_off_target config d1 d2 -> same_off_target config d2 d3 -> same_off_target config d1 d3.
Proof.
  unfold same_off_target. intros (A1 & A2 & A3 & A4 & A5) (B1 & B2 & B3 & B4 & B5).
  repeat split; congruence.
Qed.

Lemma filter_out_appended {A} (p : A -> bool) l x :
  p x = false -> filter p (l ++ [x]) = filter p l.
Proof. intros H. rewrite filter_app. simpl. rewrite H. apply app_nil_r. Qed.

Lemma attempt_statistics d a col :
  same_off_target config d
    (attempt d (CreateStatistics a (fst (target config)) (snd (target config)) col)).
Proof.
  unfold attempt. simpl.
  destruct (Engine.has_object _ _); [|apply same_off_target_refl].
  destruct (Engine.find_column _ _ _); [|apply same_off_target_refl].
  destruct (existsb _ _); [apply same_off_target_refl|].
  unfold same_off_target, Engine.remove_object, Engine.add_statistics. simpl.
  repeat split. f_equal; apply filter_out_appended; simpl;
    rewrite <- surjective_pairing, oid_eqb_refl; reflexivity.
Qed.

Lemma attempts_statistics cmds :
  Forall (on_target config) cmds ->
  forall d, same_off_target config d (fold_left attempt cmds d).
Proof.
  induction 1 as [|cmd rest (a & col & ->) _ IH]; intros d; simpl.
  - apply same_off_target_refl.
  - eapply same_off_target_trans; [apply attempt_statistics|apply IH].
Qed.

Opaque Engine.run_statement.

Lemma in_inner_join {A B} (on : A -> B -> bool) l r a b :
  In (a, b) (Engine.inner_join on l r) -> In a l.
Proof.
  unfold Engine.inner_join. intros H. apply in_flat_map in H.
  destruct H as (x & Hx & H). apply in_map_iff in H.
  destruct H as (y & Heq & _). inversion Heq. subst. exact Hx.
Qed.

Lemma in_left_join {A B} (on : A -> B -> bool) l r a b :
  In (a, b) (Engine.left_join on l r) -> In a l.
Proof.
  unfold Engine.left_join. intros H. apply in_flat_map in H.
  destruct H as (x & Hx & H).
  destruct (filter (on x) r) as [|y m].
  - destruct H as [H|[]]. inversion H. subst. exact Hx.
  - apply in_map_iff in H. destruct H as (z & Heq & _).
    inversion Heq. subst. exact Hx.
Qed.

Transparent Engine.run_query.

Lemma plan_targets c :
  name_is_targets config c = true ->
  Forall (on_target config)
    (Engine.run_query (statistics_query config) c).
Proof.
  intros Hn. apply Forall_forall. intros s Hin. simpl in Hin.
  apply in_map_iff in Hin. destruct Hin as ([[[o col] sc] st] & <- & Hin).
  unfold Engine.stats_join in Hin. apply filter_In in Hin.
  destruct Hin as (Hin & Hname). simpl in Hname. apply String.eqb_eq in Hname.
  apply in_left_join, in_left_join, in_inner_join in Hin.
  destruct (named_object_is_target _ _ Hn Hin Hname) as (Hid & _).
  unfold on_target, Engine.cmd_create. unfold Engine.o_object_id in Hid.
  rewrite <- Hid. simpl. eauto.
Qed.

Opaque Engine.run_query.

Lemma consistent_ext d d' :
  Engine.db_data_sources d' = Engine.db_data_sources d ->
  consistent g config d' = consistent g config d.
Proof.
  intros H. unfold consistent, Engine.lookup_data_source. rewrite H. reflexivity.
Qed.

Lemma created_db_ext d d' :
  Engine.remove_object (target config) (Engine.db_catalog d')
  = Engine.remove_object (target config) (Engine.db_catalog d) ->
  kept_files config d' = kept_files config d ->
  Engine.db_data_sources d' = Engine.db_data_sources d ->
  consistent g config d = true ->
  created_db g config d' = created_db g config d.
Proof.
  intros Hc Hf Hs Hcons. unfold created_db, consistent, Engine.lookup_data_source in *.
  destruct (cetas_sql g); try discriminate.
  rewrite Hs. destruct (find _ _); simpl in *; [|rewrite andb_false_r in Hcons; discriminate].
  fold (target config). rewrite Hc, Hf. reflexivity.
Qed.

(** What the create leaves: the target once, with no statistics yet, and
    its data as the only files under the cleaned path. *)
Lemma created_db_shape d :
  consistent g config d = true ->
  let d' := created_db g config d in
  exists select folder,
    Engine.db_data_sources d' = Engine.db_data_sources d /\
    Engine.db_catalog d' =
      Engine.add_external_table (target config) (sel_columns select)
        (Engine.remove_object (target config) (Engine.db_catalog d)) /\
    String.prefix (Engine.directory (materialized_table_output_path config)) folder
    = true /\
    Engine.db_files d' =
      kept_files config d
      ++ [{| Engine.f_path := (folder ++ "part-0.parquet")%string;
             Engine.f_content := sel_data select |}].
Proof.
  intros Hcons. unfold created_db, consistent in *.
  destruct (cetas_sql g) as [|t loc ds ff sel| |]; try discriminate.
  apply andb_true_iff in Hcons. destruct Hcons as (_ & Hp).
  destruct (Engine.lookup_data_source ds d) as [root|]; [|discriminate].
  exists sel, (Engine.directory (root ++ loc)). simpl. auto.
Qed.

Lemma created_name_is_targets d :
  name_is_targets config (Engine.db_catalog d) = true ->
  consistent g config d = true ->
  name_is_targets config (Engine.db_catalog (created_db g config d)) = true.
Proof.
  intros Hn Hcons.
  destruct (created_db_shape d Hcons) as (sel & folder & _ & Hcat & _).
  rewrite Hcat. unfold name_is_targets in *. simpl.
  rewrite forallb_app. apply andb_true_iff. split.
  - rewrite forallb_forall in *. intros o Ho. apply filter_In in Ho.
    apply Hn. tauto.
  - simpl. rewrite <- id_name, String.eqb_refl.
    unfold Engine.o_object_id. simpl. fold (target config).
    rewrite <- surjective_pairing, oid_eqb_refl. reflexivity.
Qed.

Lemma target_found d :
  In {| Engine.o_schema := fst (target config); Engine.o_name := snd (target config);
        Engine.o_type := Engine.ExternalTable |}
    (Engine.sys_objects (Engine.db_catalog d)) ->
  found config d = true.
Proof.
  intros H. apply found_iff. eexists. split; [exact H|]. simpl.
  split; [reflexivity|apply id_name].
Qed.

Lemma numbered_column_object i names : forall n x,
  In x (Engine.number_columns i n names) -> Engine.c_object_id x = i.
Proof.
  induction names as [|c cs IH]; simpl; intros n x H; [destruct H|].
  destruct H as [<-|H]; [reflexivity|eauto].
Qed.

Lemma under_cleaned_path folder x :
  String.prefix (Engine.directory (materialized_table_output_path config)) folder = true ->
  String.prefix (Engine.directory (materialized_table_output_path config)) (folder ++ x)
  = true.
Proof. intros H. exact (prefix_trans _ _ _ H (prefix_append folder x)). Qed.

(** The database after a refresh on which nothing is made to raise. *)
Lemma refresh_db_creates d :
  name_is_targets config (Engine.db_catalog d) = true ->
  consistent g config d = true ->
  found config d = true \/ catalog_wf (Engine.db_catalog d) = true ->
  snd (steps_db g config d) = true /\
  refresh_db g config d = statistics_db config (created_db g config d) /\
  same_off_target config (created_db g config d) (refresh_db g config d).
Proof.
  intros Hn Hcons Hw. unfold refresh_db.
  rewrite (steps_db_creates d Hn Hcons Hw). simpl.
  split; [reflexivity|split; [reflexivity|]].
  unfold statistics_db. apply attempts_statistics, plan_targets.
  apply created_name_is_targets; assumption.
Qed.

Lemma refresh_db_repeat d :
  name_is_targets config (Engine.db_catalog d) = true ->
  consistent g config d = true ->
  found config d = true \/ catalog_wf (Engine.db_catalog d) = true ->
  refresh_db g config (refresh_db g config d) = refresh_db g config d /\
  snd (steps_db g config (refresh_db g config d)) = true.
Proof.
  intros Hn Hcons Hw.
  destruct (refresh_db_creates d Hn Hcons Hw) as (_ & Hrun & Hoff).
  destruct Hoff as (Hrem & Hobjs & Hcols & Hfiles & Hsrc).
  destruct (created_db_shape d Hcons) as (sel & folder & Hsrc0 & Hcat & Hp & Hf).
  set (d1 := refresh_db g config d) in *.
  assert (Hn1 : name_is_targets config (Engine.db_catalog d1) = true).
  { pose proof (created_name_is_targets d Hn Hcons) as H.
    unfold name_is_targets in *. rewrite Hobjs. exact H. }
  assert (Hcons1 : consistent g config d1 = true).
  { rewrite (consistent_ext d d1); [exact Hcons|congruence]. }
  assert (Hfound1 : found config d1 = true).
  { apply target_found. rewrite Hobjs, Hcat. simpl.
    apply in_or_app. right. left. reflexivity. }
  destruct (refresh_db_creates d1 Hn1 Hcons1 (or_introl Hfound1)) as (Hok & Hrun1 & _).
  split; [|exact Hok].
  assert (Hcat1 : Engine.remove_object (target config) (Engine.db_catalog d1)
                  = Engine.remove_object (target config) (Engine.db_catalog d)).
  { fold (target config) in Hrem. rewrite Hrem, Hcat.
    unfold Engine.remove_object, Engine.add_external_table. simpl.
    f_equal.
    + rewrite filter_out_appended, filter_filter_same; auto.
      unfold Engine.o_object_id. simpl.
      rewrite <- surjective_pairing, oid_eqb_refl. reflexivity.
    + rewrite filter_app, filter_filter_same.
      rewrite (filter_none _ (Engine.number_columns (target config) 1 (sel_columns sel))).
      * apply app_nil_r.
      * intros x Hx. apply negb_false_iff.
        rewrite (numbered_column_object _ _ _ _ Hx). apply oid_eqb_refl.
    + apply filter_filter_same.
    + apply filter_filter_same. }
  assert (Hfiles1 : kept_files config d1 = kept_files config d).
  { unfold kept_files in *.
    rewrite Hfiles, Hf. rewrite filter_out_appended, filter_filter_same; auto.
    unfold Engine.under. cbn [Engine.f_path].
    rewrite (under_cleaned_path folder _ Hp). reflexivity. }
  assert (Hsrc1 : Engine.db_data_sources d1 = Engine.db_data_sources d) by congruence.
  rewrite Hrun1, (created_db_ext d d1 Hcat1 Hfiles1 Hsrc1 Hcons).
  symmetry. exact Hrun.
Qed.

End Repeat.

Lemma found_pre_exists config w : found config (w_db w) = pre_exists config w.
Proof. unfold found, pre_exists. apply rs_next_exists. Qed.

Lemma written_file_under path folder x content :
  String.prefix (Engine.directory path) folder = true ->
  Engine.under path {| Engine.f_path := folder ++ x; Engine.f_content := content |}
  = true.
Proof.
  intros H. unfold Engine.under. cbn [Engine.f_path].
  exact (prefix_trans _ _ _ H (prefix_append folder x)).
Qed.

Lemma target_row_id i t :
  Engine.o_object_id
    {| Engine.o_schema := fst i; Engine.o_name := snd i; Engine.o_type := t |} = i.
Proof. destruct i. reflexivity. Qed.

Lemma created_db_target g config d :
  consistent g config d = true ->
  target_count config (created_db g config d) = 1 /\
  target_statistics config (created_db g config d) = [] /\
  map Engine.f_content (output_files config (created_db g config d)) = [selected_data g].
Proof.
  intros Hcons. unfold target_count, target_statistics, output_files, selected_data.
  unfold created_db, consistent in *.
  destruct (cetas_sql g) as [|t loc ds ff sel| |]; try discriminate.
  apply andb_true_iff in Hcons. destruct Hcons as (_ & Hp).
  destruct (Engine.lookup_data_source ds d) as [root|]; [|discriminate].
  unfold Engine.stats_of, Engine.add_external_table, Engine.remove_object.
  cbn [Engine.db_catalog Engine.db_files Engine.sys_objects Engine.sys_stats sel_data].
  repeat split.
  - rewrite filter_app, length_app. cbn [filter].
    rewrite target_row_id, oid_eqb_refl. cbn [length].
    rewrite filter_none; [reflexivity|].
    intros o Ho. apply filter_In in Ho. apply negb_true_iff. tauto.
  - apply filter_none.
    intros s Hs. apply filter_In in Hs. apply negb_true_iff. tauto.
  - rewrite filter_app. cbn [filter]. rewrite (written_file_under _ _ _ _ Hp).
    rewrite filter_none; [reflexivity|].
    intros f Hf. apply filter_In in Hf. apply negb_true_iff. tauto.
Qed.

(** ** The plan of statistics commands for a table just created *)

Lemma left_join_app {A B} (on : A -> B -> bool) l1 l2 r :
  Engine.left_join on (l1 ++ l2) r = Engine.left_join on l1 r ++ Engine.left_join on l2 r.
Proof. apply flat_map_app. Qed.

Lemma inner_join_app {A B} (on : A -> B -> bool) l1 l2 r :
  Engine.inner_join on (l1 ++ l2) r
  = Engine.inner_join on l1 r ++ Engine.inner_join on l2 r.
Proof. apply flat_map_app. Qed.

Lemma left_join_unmatched {A B} (on : A -> B -> bool) l r :
  (forall a b, In a l -> In b r -> on a b = false) ->
  Engine.left_join on l r = map (fun a => (a, None)) l.
Proof.
  intros H. induction l as [|a l IH]; [reflexivity|].
  change (a :: l) with ([a] ++ l). rewrite left_join_app, IH.
  - unfold Engine.left_join. simpl. rewrite (filter_none (on a) r); [reflexivity|].
    intros b Hb. apply H; [left; reflexivity|exact Hb].
  - intros a' b Ha Hb. apply H; [right; exact Ha|exact Hb].
Qed.

Section Plan.

Variable config : config.

Transparent Engine.run_query.

Lemma plan_for_created_table c names :
  name_is_targets config c = true ->
  Engine.run_query (statistics_query config)
    (Engine.add_external_table (target config) names (Engine.remove_object (target config) c))
  = map (Engine.cmd_create (target_row config)) (target_columns config names).
Proof.
  intros Hn. unfold statistics_query. simpl.
  unfold Engine.stats_join. simpl.
  set (objs := filter _ (Engine.sys_objects c)).
  set (cols := filter _ (Engine.sys_columns c)).
  set (scs := filter _ (Engine.sys_stats_columns c)).
  set (sts := filter _ (Engine.sys_stats c)).
  fold (target config). fold (target_row config).
  set (new := Engine.number_columns (target config) 1 names).
  rewrite inner_join_app, !left_join_app, filter_app, map_app.
  assert (Hold : forall A (rows : list A) (f : A -> Engine.object_row),
             (forall r, In r rows -> In (f r) objs) ->
             filter (fun r => String.eqb (Engine.o_name (f r))
                                (PyStr.unqualified (external_table config))) rows
             = []).
  { intros A rows f Hin. apply filter_none. intros r Hr.
    apply Hin in Hr. apply filter_In in Hr. destruct Hr as (Ho & Hne).
    apply not_true_is_false. intros Heq. apply String.eqb_eq in Heq.
    destruct (named_object_is_target config c _ Hn Ho Heq) as (Hid & _).
    fold (target config) in Hid. rewrite Hid, oid_eqb_refl in Hne. discriminate. }
  rewrite (Hold _ _ (fun r => fst (fst (fst r)))).
  2:{ intros [[[o col] sc] st] Hr. simpl.
      apply in_left_join, in_left_join, in_inner_join in Hr. exact Hr. }
  simpl. unfold Engine.inner_join. simpl. rewrite app_nil_r.
  rewrite filter_app.
  rewrite (filter_none _ cols), (filter_all _ new).
  - simpl.
    rewrite (left_join_unmatched _ (map (pair (target_row config)) new) scs).
    + rewrite left_join_unmatched.
      * rewrite filter_all.
        -- rewrite !map_map. reflexivity.
        -- intros r Hr. rewrite !map_map in Hr. apply in_map_iff in Hr.
           destruct Hr as (col & <- & _). simpl.
           apply String.eqb_eq. apply id_name.
      * intros a b Ha Hb. apply in_map_iff in Ha. destruct Ha as (p & <- & _).
        reflexivity.
    + intros a b Ha Hb. apply in_map_iff in Ha. destruct Ha as (col & <- & Hcol).
      simpl. unfold new in Hcol. rewrite (numbered_column_object _ _ _ _ Hcol).
      apply filter_In in Hb. destruct Hb as (_ & Hb).
      apply negb_true_iff in Hb. rewrite Hb. reflexivity.
  - intros col Hcol. unfold new in Hcol.
    rewrite (numbered_column_object _ _ _ _ Hcol).
    unfold target_row. rewrite target_row_id. apply oid_eqb_refl.
  - intros col Hcol. apply filter_In in Hcol. destruct Hcol as (_ & Hne).
    apply negb_true_iff in Hne. unfold target_row. rewrite target_row_id.
    destruct (Engine.oid_eqb (target config) (Engine.c_object_id col)) eqn:E; [|reflexivity].
    apply oid_eqb_eq in E. rewrite <- E, oid_eqb_refl in Hne. discriminate.
Qed.

Opaque Engine.run_query.

Transparent Engine.run_statement.

Lemma run_create_statistics a sch obj col d :
  Engine.run_statement (CreateStatistics a sch obj col) d =
  if Engine.has_object (sch, obj) (Engine.db_catalog d)
  then match Engine.find_column (sch, obj) col (Engine.db_catalog d) with
       | None => inr (QueryError "column does not exist")
       | Some c =>
           if existsb (fun s => String.eqb (Engine.s_name s) a)
                (Engine.stats_of (sch, obj) (Engine.db_catalog d))
           then inr (QueryError "statistics already exist")
           else inl (Engine.with_catalog d
                       (Engine.add_statistics (sch, obj) a c (Engine.db_catalog d)))
       end
  else inr (QueryError "object does not exist").
Proof. reflexivity. Qed.

Lemma attempt_create_statistics d col :
  Engine.has_object (target config) (Engine.db_catalog d) = true ->
  Engine.find_column (target config) (Engine.c_name col) (Engine.db_catalog d) = Some col ->
  existsb (fun s => String.eqb (Engine.s_name s) ("Stats_" ++ Engine.c_name col))
    (Engine.stats_of (target config) (Engine.db_catalog d)) = false ->
  attempt d (Engine.cmd_create (target_row config) col)
  = Engine.with_catalog d
      (Engine.add_statistics (target config) ("Stats_" ++ Engine.c_name col)%string col
         (Engine.db_catalog d)).
Proof.
  intros H1 H2 H3. unfold attempt, Engine.cmd_create, target_row.
  rewrite run_create_statistics. cbn [Engine.o_schema Engine.o_name].
  fold (target config). rewrite <- surjective_pairing, H1, H2, H3. reflexivity.
Qed.

Opaque Engine.run_statement.

Lemma apply_plan todo : forall done d,
  Engine.has_object (target config) (Engine.db_catalog d) = true ->
  (forall col, In col todo ->
     Engine.find_column (target config) (Engine.c_name col) (Engine.db_catalog d) = Some col) ->
  (forall s, In s (Engine.stats_of (target config) (Engine.db_catalog d)) ->
     exists col, In col done
                 /\ Engine.s_name s = ("Stats_" ++ Engine.c_name col)%string) ->
  (forall col, In col done -> has_statistics config d col = true) ->
  NoDup (map Engine.c_name todo) ->
  (forall col, In col todo -> ~ In (Engine.c_name col) (map Engine.c_name done)) ->
  forall col, In col (todo ++ done) ->
    has_statistics config
      (fold_left attempt (map (Engine.cmd_create (target_row config)) todo) d) col
    = true.
Proof.
  induction todo as [|x todo IH]; intros done d H1 H2 H3 H4 Hnd Hfresh col Hcol.
  - simpl in *. auto.
  - simpl. inversion Hnd as [|? ? Hx Hnd']. subst.
    rewrite attempt_create_statistics; auto.
    2:{ apply H2. left. reflexivity. }
    2:{ apply not_true_is_false. intros Hex. apply existsb_exists in Hex.
        destruct Hex as (s & Hs & Hname). apply String.eqb_eq in Hname.
        destruct (H3 s Hs) as (col' & Hdone & Hname').
        rewrite Hname' in Hname. simpl in Hname. inversion Hname as [Heq].
        apply (Hfresh x (or_introl eq_refl)). rewrite <- Heq.
        apply in_map. exact Hdone. }
    apply (IH (x :: done)).
    + exact H1.
    + intros c Hc. unfold Engine.find_column. simpl. apply H2. right. exact Hc.
    + intros s Hs. unfold Engine.stats_of in Hs. simpl in Hs.
      rewrite filter_app in Hs. apply in_app_or in Hs. destruct Hs as [Hs|Hs].
      * destruct (H3 s Hs) as (c & Hc & Hn). exists c. split; [right; exact Hc|exact Hn].
      * simpl in Hs. rewrite oid_eqb_refl in Hs. destruct Hs as [<-|[]].
        exists x. split; [left; reflexivity|reflexivity].
    + intros c [<-|Hc]; unfold has_statistics; simpl; fold (target config); rewrite existsb_app.
      * simpl. rewrite oid_eqb_refl, Nat.eqb_refl. simpl. apply orb_true_r.
      * apply orb_true_iff. left. apply (H4 c Hc).
    + exact Hnd'.
    + intros c Hc [Heq|Hin].
      * apply Hx. rewrite Heq. apply in_map. exact Hc.
      * apply (Hfresh c (or_intror Hc) Hin).
    + apply in_app_or in Hcol. apply in_or_app.
      destruct Hcol as [[<-|Hc]|Hc]; [right; left; reflexivity|left; exact Hc|].
      right. right. exact Hc.
Qed.

Lemma numbered_names i names : forall n,
  map Engine.c_name (Engine.number_columns i n names) = names.
Proof. induction names as [|a rest IH]; intros n; simpl; [|rewrite IH]; reflexivity. Qed.

Lemma find_numbered i names :
  NoDup names ->
  forall n col,
    In col (Engine.number_columns i n names) ->
    find (fun x => Engine.oid_eqb (Engine.c_object_id x) i
                   && String.eqb (Engine.c_name x) (Engine.c_name col))
      (Engine.number_columns i n names) = Some col.
Proof.
  induction 1 as [|a rest Ha Hnd IH]; intros n col Hcol; [destruct Hcol|].
  simpl in *. destruct Hcol as [<-|Hcol].
  - simpl. rewrite oid_eqb_refl, String.eqb_refl. reflexivity.
  - rewrite oid_eqb_refl. simpl.
    destruct (String.eqb a (Engine.c_name col)) eqn:E; [|apply IH; exact Hcol].
    apply String.eqb_eq in E. exfalso. apply Ha. rewrite E.
    rewrite <- (numbered_names i rest (S n)). apply in_map. exact Hcol.
Qed.

Lemma find_skip {A} (p : A -> bool) l1 l2 :
  (forall x, In x l1 -> p x = false) -> find p (l1 ++ l2) = find p l2.
Proof.
  induction l1 as [|x l1 IH]; intros H; simpl; [reflexivity|].
  rewrite (H x (or_introl eq_refl)). apply IH. intros y Hy. apply H. right. exact Hy.
Qed.

Lemma created_db_catalog g d :
  consistent g config d = true ->
  Engine.db_catalog (created_db g config d)
  = Engine.add_external_table (target config) (selected_columns g)
      (Engine.remove_object (target config) (Engine.db_catalog d)).
Proof.
  unfold consistent, created_db, selected_columns.
  destruct (cetas_sql g); try discriminate.
  destruct (Engine.lookup_data_source _ _); [reflexivity|].
  rewrite andb_false_r. discriminate.
Qed.

Lemma statistics_on_all_columns g d :
  consistent g config d = true ->
  name_is_targets config (Engine.db_catalog d) = true ->
  NoDup (selected_columns g) ->
  all_columns_have_statistics config (statistics_db config (created_db g config d))
  = true.
Proof.
  intros Hcons Hn Hnd.
  pose proof (created_db_catalog g d Hcons) as Hcat.
  assert (Hoff : same_off_target config (created_db g config d)
                   (statistics_db config (created_db g config d))).
  { unfold statistics_db. apply attempts_statistics, plan_targets.
    apply created_name_is_targets; assumption. }
  destruct Hoff as (_ & _ & Hcols & _).
  unfold all_columns_have_statistics. rewrite Hcols, Hcat. simpl.
  rewrite filter_app, filter_none, filter_all; simpl.
  - apply forallb_forall. intros col Hcol.
    unfold statistics_db. rewrite Hcat, (plan_for_created_table _ _ Hn).
    apply (apply_plan (target_columns config (selected_columns g)) []).
    + rewrite Hcat. unfold Engine.has_object. simpl. rewrite existsb_app. simpl.
      rewrite target_row_id, oid_eqb_refl. simpl. apply orb_true_r.
    + intros c Hc. rewrite Hcat. unfold Engine.find_column. simpl.
      rewrite find_skip.
      * apply find_numbered; assumption.
      * intros x Hx. apply filter_In in Hx. destruct Hx as (_ & Hx).
        apply negb_true_iff in Hx. fold (target config) in Hx. rewrite Hx. reflexivity.
    + intros s Hs. rewrite Hcat in Hs. unfold Engine.stats_of in Hs. simpl in Hs.
      apply filter_In in Hs. destruct Hs as (Hs & Hid).
      apply filter_In in Hs. destruct Hs as (_ & Hne).
      fold (target config) in Hne. rewrite Hid in Hne. discriminate.
    + intros c [].
    + unfold target_columns. rewrite numbered_names. exact Hnd.
    + intros c _ [].
    + rewrite app_nil_r. exact Hcol.
  - intros col Hcol. rewrite (numbered_column_object _ _ _ _ Hcol). apply oid_eqb_refl.
  - intros col Hcol. apply filter_In in Hcol. destruct Hcol as (_ & Hne).
    apply negb_true_iff in Hne. exact Hne.
Qed.

End Plan.
(** ** The existence check *)



(** ** The plan of statistics commands *)

(** The plan is the result set of the catalog query, row by row, in the
    order in which the engine returned it. *)
Lemma plan_follows_result_set config w :
  planned_statistics config w
  = Engine.run_query (statistics_query config) (Engine.db_catalog (w_db w)).
Proof. unfold planned_statistics. apply while_rs_next_appends. Qed.

(** C5, where the code departs from it.  On a two-column table whose column [id]
    carries two statistics objects, the plan has three commands, two of them
    the same command for [id], and the function announces three columns.  On
    a catalog with a second table of the same name in another schema, the
    plan for the two-column target has a third command, for the column of the
    other table, and a refresh executes it. *)
Theorem statistics_plan_exceeds_columns :
  columns_of_target sample_config analysed_world = ["id"; "amount"] /\
  planned_statistics sample_config analysed_world =
    [CreateStatistics "Stats_id" "dbo" "Sales_Materialized" "id";
     CreateStatistics "Stats_id" "dbo" "Sales_Materialized" "id";
     CreateStatistics "Stats_amount" "dbo" "Sales_Materialized" "amount"] /\
  In (CreatingStatistics 3 "Sales_Materialized")
    (printed (snd (create_statistics_for_external_table sample_config analysed_world))) /\
  columns_of_target sample_config two_schemas_world = ["id"; "amount"] /\
  planned_statistics sample_config two_schemas_world =
    [CreateStatistics "Stats_id" "dbo" "Sales_Materialized" "id";
     CreateStatistics "Stats_amount" "dbo" "Sales_Materialized" "amount";
     CreateStatistics "Stats_key" "staging" "Sales_Materialized" "key"] /\
  statistics_commands tidy_notebook sample_config two_schemas_world_with_files =
    [CreateStatistics "Stats_key" "staging" "Sales_Materialized" "key";
     CreateStatistics "Stats_id" "dbo" "Sales_Materialized" "id";
     CreateStatistics "Stats_amount" "dbo" "Sales_Materialized" "amount"].
Proof.
  repeat split; try (vm_compute; reflexivity).
  vm_compute. left. reflexivity.
Qed.

(** On a table that has just been created, and whose name no other object
    has, the plan is one command per column, in the order of the columns. *)
Lemma plan_one_command_per_column g config d :
  consistent g config d = true ->
  name_is_targets config (Engine.db_catalog d) = true ->
  Engine.run_query (statistics_query config)
    (Engine.db_catalog (created_db g config d))
  = map (Engine.cmd_create (target_row config))
      (target_columns config (selected_columns g)).
Proof.
  intros Hcons Hn. rewrite (created_db_catalog config g d Hcons).
  apply plan_for_created_table. exact Hn.
Qed.

(** ** Storage cleanup *)

(** C8 as stated fails: the value that [delete_adls_path] returns is the same
    whether or not anything was deleted, so no boolean can be read from it. *)
Lemma delete_adls_path_returns_no_flag : ~ exists flag, tells_deletion flag.
Proof.
  intros (flag & H).
  pose proof (H (materialized_table_output_path sample_config) world_with_old_files
                eq_refl) as H1.
  pose proof (H (materialized_table_output_path sample_config) empty_world eq_refl) as H2.
  vm_compute in H1, H2. congruence.
Qed.

(** ** Repeating the shipped notebook *)

(** ** Repeating a refresh *)



(** ** Sample runs *)


Lemma statistics_failures_isolated_witness :
  fst (refresh_external_table tidy_notebook sample_config
         (world_with_table (failing_statistics "id" timeout))) = Ok tt /\
  In (Failed (CreateStatistics "Stats_id" "dbo" "Sales_Materialized" "id") timeout)
    (printed (snd (refresh_external_table tidy_notebook sample_config
                     (world_with_table (failing_statistics "id" timeout))))).
Proof.
  assert (Hsp : spares (fun c => negb (is_statistics_command c))
                  (world_with_table (failing_statistics "id" timeout))).
  { intros h c Hc. destruct c as [| | | |s [| |a b d e|]| | |]; try reflexivity.
    discriminate Hc. }
  destruct (statistics_failures_isolated tidy_notebook sample_config
              (world_with_table (failing_statistics "id" timeout)) Hsp eq_refl)
    as (outs & Hok & _).
  split; [exact Hok|]. vm_compute. tauto.
Defined.

Lemma failed_create_skips_statistics_unreported_witness :
  fst (refresh_external_table shipped_notebook sample_config
         (world_with_table (failing_create syntax_error))) = Raise syntax_error /\
  statistics_events shipped_notebook sample_config
    (world_with_table (failing_create syntax_error)) = [] /\
  ~ In SkippingStatistics
      (new_lines (world_with_table (failing_create syntax_error))
         (snd (refresh_external_table shipped_notebook sample_config
                 (world_with_table (failing_create syntax_error))))).
Proof.
  destruct (failed_create_skips_statistics_unreported shipped_notebook sample_config
              (world_with_table (failing_create syntax_error)) 1 syntax_error eq_refl)
    as (H1 & H2 & _ & H4).
  - vm_compute. tauto.
  - auto.
Defined.

(* ================================================================= *)
(** * Further properties *)

(** ** What a refresh leaves alone *)

Lemma for_cmd_in_preserves (R : Engine.db -> Engine.db -> Prop) s commands :
  (forall d, R d d) ->
  (forall a b c, R a b -> R b c -> R a c) ->
  (forall cmd d d', In cmd commands -> Engine.run_statement cmd d = inl d' -> R d d') ->
  forall w, R (w_db w) (w_db (snd (for_cmd_in s commands w))).
Proof.
  intros Hrefl Htrans. induction commands as [|cmd rest IH]; intros Hstep w.
  - apply Hrefl.
  - rewrite for_cmd_in_cons. unfold bind at 1.
    unfold try_except, bind, execute, external, print.
    assert (Hrest : forall cmd d d', In cmd rest ->
                      Engine.run_statement cmd d = inl d' -> R d d')
      by (intros c d d' Hc; apply Hstep; right; exact Hc).
    destruct (w_fault w (w_history w) (Execute s cmd)) as [e|]; simpl;
      [|destruct (Engine.run_statement cmd (w_db w)) as [d|e] eqn:Hs; simpl;
        [eapply Htrans; [apply (Hstep cmd _ _ (or_introl eq_refl) Hs)|]|]];
      match goal with
      | |- R _ (w_db (snd (for_cmd_in _ _ ?w1))) => exact (IH Hrest w1)
      end.
Qed.

Lemma statistics_preserves (R : Engine.db -> Engine.db -> Prop) config w :
  (forall d, R d d) ->
  (forall a b c, R a b -> R b c -> R a c) ->
  (forall a b c e d d',
      Engine.run_statement (CreateStatistics a b c e) d = inl d' -> R d d') ->
  R (w_db w) (w_db (snd (create_statistics_for_external_table config w))).
Proof.
  intros Hrefl Htrans Hstep.
  unfold_all. simpl.
  fork; [apply Hrefl|]. fork; [apply Hrefl|]. fork; [apply Hrefl|].
  fork; [apply Hrefl|].
  rewrite while_rs_next_appends. simpl.
  pose proof (statistics_commands_only (PyStr.unqualified (external_table config))
                (Engine.db_catalog (w_db w))) as Hall.
  destruct (Engine.run_query _ _) as [|row rows] eqn:Hrows; simpl; [apply Hrefl|].
  match goal with
  | |- context [for_cmd_in ?s ?cs ?w1] =>
      pose proof (for_cmd_in_preserves R s cs Hrefl Htrans) as Hloop;
      specialize (fun H => Hloop H w1);
      destruct (for_cmd_in_runs s cs w1) as (outs & w' & Hrun & _)
  end.
  rewrite Hrun in *. simpl in *. apply Hloop.
  intros cmd d d' Hin Hs. rewrite Forall_forall in Hall.
  destruct (Hall cmd Hin) as (a & b & c & e & ->). eauto.
Qed.

Ltac chain Hrefl Htrans :=
  repeat (eapply Htrans; [eassumption|]); first [eassumption | apply Hrefl].

Lemma steps_preserve (R : Engine.db -> Engine.db -> Prop) g config w :
  (forall d, R d d) ->
  (forall a b c, R a b -> R b c -> R a c) ->
  (forall d d', Engine.run_statement (DropExternalTable (external_table config)) d = inl d'
                -> R d d') ->
  (forall d, R d (fst (Engine.remove_path (materialized_table_output_path config) d))) ->
  (forall d d', Engine.run_statement (cetas_sql g) d = inl d' -> R d d') ->
  R (w_db w) (w_db (steps_world g config w)).
Proof.
  intros Hrefl Htrans Hdrop Hrm Hcetas.
  run_steps;
    repeat match goal with
           | H : Engine.run_statement _ _ = inl _ |- _ =>
               first [apply Hdrop in H | apply Hcetas in H]
           | H : Engine.remove_path ?p ?d = _ |- _ =>
               let K := fresh "K" in
               pose proof (Hrm d) as K; rewrite H in K; simpl in K; clear H
           end;
    chain Hrefl Htrans.
Qed.

Lemma refresh_preserves (R : Engine.db -> Engine.db -> Prop) g config w :
  (forall d, R d d) ->
  (forall a b c, R a b -> R b c -> R a c) ->
  (forall d d', Engine.run_statement (DropExternalTable (external_table config)) d = inl d'
                -> R d d') ->
  (forall d, R d (fst (Engine.remove_path (materialized_table_output_path config) d))) ->
  (forall d d', Engine.run_statement (cetas_sql g) d = inl d' -> R d d') ->
  (forall a b c e d d',
      Engine.run_statement (CreateStatistics a b c e) d = inl d' -> R d d') ->
  R (w_db w) (w_db (snd (refresh_external_table g config w))).
Proof.
  intros Hrefl Htrans Hdrop Hrm Hcetas Hstat.
  pose proof (steps_preserve R g config w Hrefl Htrans Hdrop Hrm Hcetas) as H1.
  rewrite refresh_external_table_run.
  destruct (steps_result g config w) as [[]|e]; simpl; [|exact H1].
  eapply Htrans; [exact H1|]. apply statistics_preserves; assumption.
Qed.

Transparent Engine.run_statement Engine.remove_path.

Lemma run_statement_keeps_files s d d' :
  Engine.run_statement s d = inl d' ->
  forall f, In f (Engine.db_files d) -> In f (Engine.db_files d').
Proof.
  destruct s as [t|t loc ds ff sel|a b c e|txt]; simpl.
  - destruct (Engine.has_external_table _ _); [|discriminate].
    intros H. inversion H. auto.
  - destruct (Engine.has_object _ _); [discriminate|].
    destruct (Engine.lookup_data_source _ _); [|discriminate].
    destruct (existsb _ _); [discriminate|].
    intros H. inversion H. simpl. intros f Hf. apply in_or_app. auto.
  - destruct (Engine.has_object _ _); [|discriminate].
    destruct (Engine.find_column _ _ _); [|discriminate].
    destruct (existsb _ _); [discriminate|].
    intros H. inversion H. auto.
  - discriminate.
Qed.

Lemma create_statistics_only a b c e d d' :
  Engine.run_statement (CreateStatistics a b c e) d = inl d' -> statistics_only d d'.
Proof.
  simpl.
  destruct (Engine.has_object _ _); [|discriminate].
  destruct (Engine.find_column _ _ _); [|discriminate].
  destruct (existsb _ _); [discriminate|].
  intros H. inversion H. unfold statistics_only. simpl. auto.
Qed.

Lemma drop_keeps_others t d d' :
  Engine.run_statement (DropExternalTable t) d = inl d' ->
  others_kept (Engine.resolve t) d d'.
Proof.
  simpl. destruct (Engine.has_external_table _ _); [|discriminate].
  intros H. inversion H. unfold others_kept. simpl. intros o Ho Hne.
  apply filter_In. split; [exact Ho|]. apply negb_true_iff.
  apply not_true_is_false. intros E. apply oid_eqb_eq in E. auto.
Qed.

Lemma cetas_keeps_objects t loc ds ff sel d d' :
  Engine.run_statement (CreateExternalTableAsSelect t loc ds ff sel) d = inl d' ->
  (forall o, In o (Engine.sys_objects (Engine.db_catalog d)) ->
             In o (Engine.sys_objects (Engine.db_catalog d'))) /\
  Engine.has_external_table (Engine.resolve t) (Engine.db_catalog d') = true.
Proof.
  simpl. destruct (Engine.has_object _ _); [discriminate|].
  destruct (Engine.lookup_data_source _ _); [|discriminate].
  destruct (existsb _ _); [discriminate|].
  intros H. inversion H. simpl. split.
  - intros o Ho. apply in_or_app. auto.
  - unfold Engine.has_external_table, Engine.sys_external_tables. simpl.
    rewrite filter_app, existsb_app. simpl.
    rewrite target_row_id, oid_eqb_refl. simpl. apply orb_true_r.
Qed.

Lemma remove_path_keeps path d :
  files_kept path d (fst (Engine.remove_path path d)) /\
  Engine.db_catalog (fst (Engine.remove_path path d)) = Engine.db_catalog d.
Proof.
  split; [|reflexivity]. unfold files_kept. simpl. intros f Hf Hu.
  apply filter_In. rewrite Hu. auto.
Qed.

Opaque Engine.run_statement Engine.remove_path.

Lemma statistics_only_refl d : statistics_only d d.
Proof. unfold statistics_only. auto. Qed.

Lemma statistics_only_trans a b c :
  statistics_only a b -> statistics_only b c -> statistics_only a c.
Proof.
  unfold statistics_only. intros (A1 & A2 & A3 & A4) (B1 & B2 & B3 & B4).
  repeat split; congruence.
Qed.

(** X1. Whatever raises, [create_statistics_for_external_table] changes
    nothing in the database but statistics: the objects, the columns, the
    files and the data sources are those it found. *)
Theorem statistics_phase_touches_statistics_only config w :
  statistics_only (w_db w)
    (w_db (snd (create_statistics_for_external_table config w))).
Proof.
  apply statistics_preserves.
  - apply statistics_only_refl.
  - apply statistics_only_trans.
  - apply create_statistics_only.
Qed.

(** X2. Whatever raises, and whatever [cetas_sql] holds, a refresh removes no
    file that is outside the configured output path. *)
Theorem refresh_keeps_files_outside_path g config w :
  files_kept (materialized_table_output_path config) (w_db w)
    (w_db (snd (refresh_external_table g config w))).
Proof.
  apply refresh_preserves.
  - intros d f Hf _. exact Hf.
  - intros a b c Hab Hbc f Hf Hu. apply Hbc; [apply Hab|]; assumption.
  - intros d d' H f Hf _. exact (run_statement_keeps_files _ _ _ H f Hf).
  - intros d. apply remove_path_keeps.
  - intros d d' H f Hf _. exact (run_statement_keeps_files _ _ _ H f Hf).
  - intros a b c e d d' H f Hf _. exact (run_statement_keeps_files _ _ _ H f Hf).
Qed.

(** X3. When [cetas_sql] is a create-as-select statement, a refresh removes
    no object of the catalog other than the table that [config] names,
    whatever raises. *)
Theorem refresh_keeps_other_objects g config w :
  is_cetas (cetas_sql g) = true ->
  others_kept (target config) (w_db w) (w_db (snd (refresh_external_table g config w))).
Proof.
  intros Hc. apply refresh_preserves.
  - intros d o Ho _. exact Ho.
  - intros a b c Hab Hbc o Ho Hne. apply Hbc; [apply Hab|]; assumption.
  - intros d d' H. exact (drop_keeps_others _ _ _ H).
  - intros d o Ho _. rewrite (proj2 (remove_path_keeps _ d)). exact Ho.
  - destruct (cetas_sql g) as [|t loc ds ff sel| |]; try discriminate.
    intros d d' H o Ho _. exact (proj1 (cetas_keeps_objects _ _ _ _ _ _ _ H) o Ho).
  - intros a b c e d d' H o Ho _.
    destruct (create_statistics_only _ _ _ _ _ _ H) as (E & _). rewrite E. exact Ho.
Qed.

Lemma refresh_keeps_other_objects_witness :
  others_kept (target sample_config) (w_db two_schemas_world_with_files)
    (w_db (snd (refresh_external_table tidy_notebook sample_config
                  two_schemas_world_with_files))).
Proof. exact (refresh_keeps_other_objects tidy_notebook sample_config _ eq_refl). Defined.

Lemma steps_ok_table_created g config w :
  is_cetas (cetas_sql g) = true ->
  steps_result g config w = Ok tt ->
  Engine.has_external_table (created_table g)
    (Engine.db_catalog (w_db (steps_world g config w))) = true.
Proof.
  intros Hc. unfold created_table. destruct g as [C text]. simpl in *.
  destruct text as [|t loc ds ff sel| |]; try discriminate.
  run_steps; intros Hok; try discriminate Hok;
    match goal with
    | H : Engine.run_statement (CreateExternalTableAsSelect _ _ _ _ _) _ = inl _ |- _ =>
        exact (proj2 (cetas_keeps_objects _ _ _ _ _ _ _ H))
    end.
Qed.

(** X4. When [cetas_sql] is a create-as-select statement and steps 1-4 have
    succeeded, the table that [cetas_sql] names is an external table of the
    catalog at the end of the refresh, whatever the statistics phase does,
    even if it raises. *)
Theorem created_table_survives_statistics g config w :
  is_cetas (cetas_sql g) = true ->
  steps_result g config w = Ok tt ->
  Engine.has_external_table (created_table g)
    (Engine.db_catalog (w_db (snd (refresh_external_table g config w)))) = true.
Proof.
  intros Hc Hok. pose proof (steps_ok_table_created g config w Hc Hok) as H.
  rewrite refresh_external_table_run, Hok.
  assert (Hst : statistics_only (w_db (steps_world g config w))
                  (w_db (snd (create_statistics_for_external_table config
                                (steps_world g config w))))).
  { apply statistics_preserves;
      [apply statistics_only_refl|apply statistics_only_trans
      |apply create_statistics_only]. }
  destruct Hst as (E & _).
  unfold Engine.has_external_table, Engine.sys_external_tables in *.
  rewrite E. exact H.
Qed.

Lemma created_table_survives_statistics_witness :
  Engine.has_external_table (created_table tidy_notebook)
    (Engine.db_catalog
       (w_db (snd (refresh_external_table tidy_notebook sample_config
                     (world_with_table (failing_statistics "id" timeout)))))) = true.
Proof.
  exact (created_table_survives_statistics tidy_notebook sample_config
           (world_with_table (failing_statistics "id" timeout)) eq_refl eq_refl).
Defined.

(** ** Handles *)

Lemma remove_handle_new h l :
  (forall x, In x l -> x < h) -> remove_handle h l = l.
Proof.
  intros H. unfold remove_handle. apply filter_all. intros x Hx.
  apply negb_true_iff, Nat.eqb_neq. specialize (H x Hx). lia.
Qed.

Ltac close_handles Hc Hs :=
  simpl; rewrite ?Nat.eqb_refl; simpl;
  repeat match goal with
         | |- context [filter (fun x => negb (Nat.eqb x ?h)) ?l] =>
             change (filter (fun x => negb (Nat.eqb x h)) l) with (remove_handle h l)
         end;
  rewrite ?remove_handle_new;
  try (intros x Hx; first [specialize (Hc x Hx) | specialize (Hs x Hx)]; lia).

Lemma steps_handles g config w :
  handles_wf w ->
  w_connections (steps_world g config w) = w_connections w /\
  w_statements (steps_world g config w) = w_statements w /\
  w_next_handle w <= w_next_handle (steps_world g config w) <= w_next_handle w + 2.
Proof.
  intros (Hc & Hs).
  run_steps; close_handles Hc Hs; repeat split; auto; lia.
Qed.

Lemma statistics_handles config w :
  handles_wf w ->
  let w' := snd (create_statistics_for_external_table config w) in
  w_connections w' = w_connections w /\
  w_statements w' = w_statements w /\
  w_next_handle w <= w_next_handle w' <= w_next_handle w + 2.
Proof.
  intros (Hc & Hs). unfold_all. simpl.
  fork; [|fork; [|fork; [|fork]]].
  1-4: close_handles Hc Hs; repeat split; auto; lia.
  rewrite while_rs_next_appends. simpl.
  destruct (Engine.run_query _ _) as [|row rows] eqn:Hrows; simpl.
  - close_handles Hc Hs; repeat split; auto; lia.
  - match goal with
    | |- context [for_cmd_in ?s ?cs ?w1] =>
        destruct (for_cmd_in_runs s cs w1) as (outs & w' & Hrun & _ & _ & _ & Hr)
    end.
    rewrite Hrun. destruct Hr as (E1 & E2 & E3 & _). simpl in *.
    rewrite E1, E2, E3. close_handles Hc Hs; repeat split; auto; lia.
Qed.


(** ** The order of the steps *)

Lemma cleaned_before_create_sound evs : forall cleaned before ev after,
  cleaned_before_create cleaned evs = true ->
  evs = before ++ ev :: after ->
  is_create (fst ev) = true ->
  cleaned = true \/ existsb cleanup_returned before = true.
Proof.
  induction evs as [|[c o] rest IH]; intros cleaned before ev after Hc Heq Hev.
  - destruct before; discriminate.
  - destruct before as [|b before]; simpl in Heq; inversion Heq; subst; simpl in *.
    + rewrite Hev in Hc. apply andb_true_iff in Hc. tauto.
    + destruct (is_create c).
      * apply andb_true_iff in Hc. tauto.
      * destruct (is_cleanup c) eqn:Hcl.
        -- destruct (IH _ _ _ _ Hc eq_refl Hev) as [H|H].
           ++ destruct c; try discriminate. destruct o; simpl; auto.
           ++ right. rewrite H. apply orb_true_r.
        -- destruct (IH _ _ _ _ Hc eq_refl Hev) as [H|H]; auto.
           right. rewrite H. apply orb_true_r.
Qed.

Lemma cleaned_before_create_app evs : forall cleaned rest,
  existsb is_create (map fst rest) = false ->
  existsb is_cleanup (map fst rest) = false ->
  cleaned_before_create cleaned (evs ++ rest) = cleaned_before_create cleaned evs.
Proof.
  assert (Hrest : forall rest cleaned,
             existsb is_create (map fst rest) = false ->
             existsb is_cleanup (map fst rest) = false ->
             cleaned_before_create cleaned rest = true).
  { induction rest as [|[c o] rest IH]; intros cleaned H1 H2; [reflexivity|].
    simpl in *. apply orb_false_iff in H1, H2. destruct H1 as (-> & H1), H2 as (-> & H2).
    auto. }
  induction evs as [|[c o] evs IH]; intros cleaned rest H1 H2; simpl.
  - apply Hrest; assumption.
  - rewrite !IH by assumption. reflexivity.
Qed.

Lemma count_calls_app p l1 l2 : count_calls p (l1 ++ l2) = count_calls p l1 + count_calls p l2.
Proof. unfold count_calls. rewrite filter_app. apply length_app. Qed.

Lemma count_calls_none p l : existsb p (map fst l) = false -> count_calls p l = 0.
Proof.
  unfold count_calls. induction l as [|ev l IH]; simpl; [reflexivity|].
  intros H. apply orb_false_iff in H. destruct H as (-> & H). auto.
Qed.

Lemma steps_order g config w :
  cleaned_before_create false (step_events g config w) = true /\
  count_calls is_cleanup (step_events g config w) <= 1.
Proof.
  destruct g as [C text].
  destruct text; run_steps; (split; [reflexivity | unfold count_calls; simpl; lia]).
Qed.

(** X6. On every path of a refresh, whatever raises and whatever [cetas_sql]
    holds: a create-as-select statement is executed only after a storage
    cleanup call has returned, and the storage is cleaned at most once. *)
Theorem create_only_after_cleanup g config w :
  let evs := step_events g config w ++ statistics_events g config w in
  count_calls is_cleanup evs <= 1 /\
  forall before ev after,
    evs = before ++ ev :: after ->
    is_create (fst ev) = true ->
    existsb cleanup_returned before = true.
Proof.
  cbv zeta. destruct (steps_order g config w) as (Hc & Hn).
  destruct (statistics_events_no_step_calls g config w) as (_ & H2 & H3).
  split.
  - rewrite count_calls_app, (count_calls_none _ _ H2). lia.
  - intros before ev after Heq Hev.
    rewrite <- (cleaned_before_create_app _ false _ H3 H2) in Hc.
    destruct (cleaned_before_create_sound _ _ _ _ _ Hc Heq Hev) as [H|H];
      [discriminate|exact H].
Qed.

(** ** What the lines say *)

Ltac not_in := intros H; repeat (destruct H as [H|H]; [discriminate H|]); exact H.


(** X8. When [cetas_sql] is a create-as-select statement, the lines of steps
    1-4 that tell how a step went are, in order, exactly those of the calls
    that returned: the drop is reported when and only when the drop returned,
    the skip when the existence query returned no row, the cleanup as deleted
    or not found by the boolean it returned, and the create, under the name
    that [config] holds, when the create returned. *)
Theorem step_lines_follow_outcomes g config w :
  is_cetas (cetas_sql g) = true ->
  filter is_step_line (new_lines w (steps_world g config w))
  = flat_map (line_of config) (step_events g config w).
Proof.
  intros Hc. destruct g as [C text]. simpl in Hc. destruct text; try discriminate.
  run_steps; reflexivity.
Qed.

Lemma step_lines_follow_outcomes_witness :
  filter is_step_line
    (new_lines (world_with_table no_faults)
       (steps_world tidy_notebook sample_config (world_with_table no_faults)))
  = flat_map (line_of sample_config)
      (step_events tidy_notebook sample_config (world_with_table no_faults)).
Proof.
  exact (step_lines_follow_outcomes tidy_notebook sample_config
           (world_with_table no_faults) eq_refl).
Defined.


(** ** Errors of the statistics phase that are not caught per command *)

Lemma statistics_raise_keeps_db config w e :
  fst (create_statistics_for_external_table config w) = Raise e ->
  w_db (snd (create_statistics_for_external_table config w)) = w_db w.
Proof.
  unfold_all. simpl.
  fork; [|fork; [|fork; [|fork]]]; try (intros _; reflexivity).
  rewrite while_rs_next_appends. simpl.
  destruct (Engine.run_query _ _) as [|row rows] eqn:Hrows; simpl;
    [intros H; discriminate H|].
  match goal with
  | |- context [for_cmd_in ?s ?cs ?w1] =>
      destruct (for_cmd_in_runs s cs w1) as (outs & w' & Hrun & _)
  end.
  rewrite Hrun. simpl. intros H. discriminate H.
Qed.

Lemma statistics_run_raises config w r evs lines e :
  statistics_run config w r evs lines ->
  (r = Raise e <->
   exists c, In (c, Raised e) evs /\ is_statistics_command c = false) /\
  (r = Raise e ->
   lines = [StatisticsError e; StatisticsCompleted] /\
   existsb is_statistics_command (map fst evs) = false).
Proof.
  intros H. destruct H as [e0 H|e0 H|e0 c H|e0 c s H|outs c s rows H].
  1-4: split; [split|];
    [ intros Hr; inversion Hr; subst; eexists; split; [simpl; eauto 10|reflexivity]
    | intros (c' & Hin & _); split_in Hin; reflexivity
    | intros Hr; inversion Hr; subst; split; reflexivity ].
  split; [split|]; try (intros Hr; discriminate Hr).
  intros (c' & Hin & Hc). exfalso.
  apply in_app_iff in Hin. destruct Hin as [Hin|Hin]; [split_in Hin|].
  apply in_app_iff in Hin. destruct Hin as [Hin|Hin]; [|split_in Hin].
  apply in_map_iff in Hin. destruct Hin as ([cmd o] & Heq & Hin).
  unfold executed_by in Heq. simpl in Heq. inversion Heq. subst c' o.
  assert (Hcmd : In cmd rows).
  { rewrite <- H. apply in_map_iff. exists (cmd, Raised e). auto. }
  pose proof (statistics_commands_only
                (PyStr.unqualified (external_table config))
                (Engine.db_catalog (w_db w))) as Hall.
  rewrite Forall_forall in Hall. destruct (Hall cmd Hcmd) as (a & b & d & f & ->).
  discriminate Hc.
Qed.


(** ** The statistics plan *)

Transparent Engine.run_query.

Lemma in_inner_join_iff {A B} (on : A -> B -> bool) l r a b :
  In (a, b) (Engine.inner_join on l r) <-> In a l /\ In b r /\ on a b = true.
Proof.
  unfold Engine.inner_join. rewrite in_flat_map. split.
  - intros (x & Hx & H). apply in_map_iff in H. destruct H as (y & Heq & Hy).
    inversion Heq. subst. apply filter_In in Hy. tauto.
  - intros (Ha & Hb & Hon). exists a. split; [exact Ha|].
    apply in_map. apply filter_In. auto.
Qed.

Lemma left_join_covers {A B} (on : A -> B -> bool) l r a :
  In a l -> exists b, In (a, b) (Engine.left_join on l r).
Proof.
  intros Ha. unfold Engine.left_join.
  destruct (filter (on a) r) as [|y m] eqn:Hf.
  - exists None. apply in_flat_map. exists a. rewrite Hf. simpl. auto.
  - exists (Some y). apply in_flat_map. exists a. rewrite Hf. simpl. auto.
Qed.

Lemma plan_command_source config c cmd :
  In cmd (Engine.run_query (statistics_query config) c) ->
  exists o col,
    In o (Engine.sys_objects c) /\
    In col (Engine.sys_columns c) /\
    Engine.c_object_id col = Engine.o_object_id o /\
    Engine.o_name o = PyStr.unqualified (external_table config) /\
    cmd = Engine.cmd_create o col.
Proof.
  unfold statistics_query. simpl. rewrite in_map_iff.
  intros ([[[o col] sc] st] & <- & Hin). simpl.
  unfold Engine.stats_join in Hin. apply filter_In in Hin.
  destruct Hin as (Hin & Hname). simpl in Hname. apply String.eqb_eq in Hname.
  apply in_left_join, in_left_join, in_inner_join_iff in Hin.
  destruct Hin as (Ho & Hcol & Hon). apply oid_eqb_eq in Hon.
  exists o, col. auto.
Qed.

(** X10. The statistics plan holds a command exactly for the pairs of an
    object and one of its columns where the object's name is the unqualified
    table name: whatever the object's schema and kind, and whether or not the
    column has statistics already. *)
Theorem plan_membership config c cmd :
  In cmd (Engine.run_query (statistics_query config) c) <->
  exists o col,
    In o (Engine.sys_objects c) /\
    In col (Engine.sys_columns c) /\
    Engine.c_object_id col = Engine.o_object_id o /\
    Engine.o_name o = PyStr.unqualified (external_table config) /\
    cmd = Engine.cmd_create o col.
Proof.
  split; [apply plan_command_source|].
  unfold statistics_query. simpl. rewrite in_map_iff.
  - intros (o & col & Ho & Hcol & Hid & Hname & ->).
    assert (Hoc : In (o, col)
                    (Engine.inner_join
                       (fun o col => Engine.oid_eqb (Engine.o_object_id o)
                                       (Engine.c_object_id col))
                       (Engine.sys_objects c) (Engine.sys_columns c))).
    { apply in_inner_join_iff. repeat split; auto.
      rewrite Hid. apply oid_eqb_refl. }
    unfold Engine.stats_join.
    match goal with
    | |- context [Engine.left_join ?on ?l (Engine.sys_stats_columns c)] =>
        destruct (left_join_covers on l (Engine.sys_stats_columns c) _ Hoc)
          as (sc & Hsc)
    end.
    match goal with
    | |- context [Engine.left_join ?on ?l (Engine.sys_stats c)] =>
        destruct (left_join_covers on l (Engine.sys_stats c) _ Hsc) as (st & Hst)
    end.
    exists (o, col, sc, st). split; [reflexivity|].
    apply filter_In. split; [exact Hst|]. simpl. apply String.eqb_eq. exact Hname.
Qed.

Lemma plan_empty_without_columns config c :
  (forall o col, In o (Engine.sys_objects c) -> In col (Engine.sys_columns c) ->
                 Engine.c_object_id col = Engine.o_object_id o ->
                 Engine.o_name o <> PyStr.unqualified (external_table config)) ->
  Engine.run_query (statistics_query config) c = [].
Proof.
  intros Hno.
  destruct (Engine.run_query (statistics_query config) c) as [|cmd rest] eqn:Hq;
    [reflexivity|exfalso].
  assert (Hin : In cmd (Engine.run_query (statistics_query config) c))
    by (rewrite Hq; left; reflexivity).
  clear Hq.
  destruct (plan_command_source _ _ _ Hin) as (o & col & Ho & Hcol & Hid & Hname & _).
  exact (Hno o col Ho Hcol Hid Hname).
Qed.

Opaque Engine.run_query.

(** X11. When no object of the unqualified table name has a column, in
    particular when no table of that name exists, and no set-up call raises,
    [create_statistics_for_external_table] returns normally: it prints that
    there are no statistics to create, executes no statement and leaves the
    database as it was. *)
Theorem statistics_without_table_is_silent config w :
  spares (fun c => negb (is_statistics_command c)) w ->
  (forall o col,
     In o (Engine.sys_objects (Engine.db_catalog (w_db w))) ->
     In col (Engine.sys_columns (Engine.db_catalog (w_db w))) ->
     Engine.c_object_id col = Engine.o_object_id o ->
     Engine.o_name o <> PyStr.unqualified (external_table config)) ->
  let R := create_statistics_for_external_table config w in
  fst R = Ok tt /\
  new_lines w (snd R)
  = [NoStatistics (PyStr.unqualified (external_table config)); StatisticsCompleted] /\
  (forall s text o, ~ In (Execute s text, o) (new_events w (snd R))) /\
  w_db (snd R) = w_db w.
Proof.
  intros Hsp Hno. cbv zeta.
  pose proof (plan_empty_without_columns config _ Hno) as Hrows.
  unfold statistics_query in Hrows.
  unfold_all. simpl. unfold statistics_query.
  repeat (rewrite Hsp by reflexivity; simpl).
  rewrite while_rs_next_appends. simpl. rewrite Hrows. simpl.
  observe. repeat split; auto.
  intros s text o H. split_in H.
Qed.

Lemma statistics_without_table_is_silent_witness :
  fst (create_statistics_for_external_table sample_config empty_world) = Ok tt /\
  new_lines empty_world
    (snd (create_statistics_for_external_table sample_config empty_world))
  = [NoStatistics (PyStr.unqualified (external_table sample_config));
     StatisticsCompleted].
Proof.
  assert (Hsp : spares (fun c => negb (is_statistics_command c)) empty_world).
  { intros h c _. reflexivity. }
  assert (Hno : forall o col,
             In o (Engine.sys_objects (Engine.db_catalog (w_db empty_world))) ->
             In col (Engine.sys_columns (Engine.db_catalog (w_db empty_world))) ->
             Engine.c_object_id col = Engine.o_object_id o ->
             Engine.o_name o <> PyStr.unqualified (external_table sample_config)).
  { intros o col Ho. simpl in Ho. contradiction. }
  destruct (statistics_without_table_is_silent sample_config empty_world Hsp Hno)
    as (H1 & H2 & _).
  split; assumption.
Defined.

(** ** Table names *)

Transparent PyStr.unqualified.

Lemma split_not_empty sep s : PyStr.split sep s <> [].
Proof.
  destruct s as [|c s]; simpl; [discriminate|].
  destruct (Ascii.eqb c sep); [discriminate|].
  destruct (PyStr.split sep s); discriminate.
Qed.

Lemma split_app sep a b :
  PyStr.split sep (a ++ String sep b) = PyStr.split sep a ++ PyStr.split sep b.
Proof.
  induction a as [|c a IH]; simpl.
  - rewrite Ascii.eqb_refl. reflexivity.
  - rewrite IH. destruct (Ascii.eqb c sep); [reflexivity|].
    destruct (PyStr.split sep a) eqn:Ha; [|reflexivity].
    exfalso. exact (split_not_empty _ _ Ha).
Qed.

Lemma split_without_separator sep s :
  has_char sep s = false -> PyStr.split sep s = [s].
Proof.
  induction s as [|c s IH]; simpl; [reflexivity|].
  intros H. apply orb_false_iff in H. destruct H as (-> & H).
  rewrite (IH H). reflexivity.
Qed.

Lemma last_of_app {A} (l1 l2 : list A) d : l2 <> [] -> last (l1 ++ l2) d = last l2 d.
Proof.
  intros H. induction l1 as [|x l1 IH]; [reflexivity|].
  simpl. destruct (l1 ++ l2) eqn:E; [|exact IH].
  apply app_eq_nil in E. tauto.
Qed.

Lemma last_separator sep s :
  has_char sep s = false \/
  exists a b, s = (a ++ String sep b)%string /\ has_char sep b = false.
Proof.
  induction s as [|c s IH]; [left; reflexivity|].
  destruct IH as [H|(a & b & -> & H)].
  - destruct (Ascii.eqb c sep) eqn:Hc.
    + right. apply Ascii.eqb_eq in Hc. subst c. exists EmptyString, s. auto.
    + left. simpl. rewrite Hc. exact H.
  - right. exists (String c a), b. auto.
Qed.

Lemma unqualified_app q name :
  PyStr.unqualified (q ++ "." ++ name) = PyStr.unqualified name.
Proof.
  unfold PyStr.unqualified, PyStr.last_item.
  change ("." ++ name)%string with (String "." name).
  rewrite split_app. apply last_of_app. apply split_not_empty.
Qed.

Lemma unqualified_plain name :
  has_char "." name = false -> PyStr.unqualified name = name.
Proof.
  intros H. unfold PyStr.unqualified. rewrite (split_without_separator _ _ H).
  reflexivity.
Qed.

Lemma append_assoc (a b c : string) : ((a ++ b) ++ c = a ++ b ++ c)%string.
Proof. induction a as [|x a IH]; simpl; [reflexivity|]. rewrite IH. reflexivity. Qed.

(** X12. [name.split('.')[-1]] is the part of [name] after its last dot: it
    holds no dot, and [name] is either it, or a prefix, a dot and it. *)
Theorem unqualified_is_part_after_last_dot name :
  has_char "." (PyStr.unqualified name) = false /\
  (name = PyStr.unqualified name \/
   exists q, name = (q ++ "." ++ PyStr.unqualified name)%string).
Proof.
  destruct (last_separator "." name) as [H|(a & b & -> & H)].
  - rewrite (unqualified_plain _ H). auto.
  - change (String "." b) with ("." ++ b)%string.
    rewrite unqualified_app, (unqualified_plain _ H). eauto.
Qed.

Opaque PyStr.unqualified.
Transparent jdbc_url.

Lemma jdbc_url_fields config config' :
  workspace_name config' = workspace_name config ->
  database_name config' = database_name config ->
  jdbc_url config' = jdbc_url config.
Proof. unfold jdbc_url. intros -> ->. reflexivity. Qed.

Opaque jdbc_url.

(** X13. A schema (or any prefix ending in a dot) in front of the table name
    changes neither the existence check nor the statistics phase: for two
    configs that name the same workspace and database and whose table names
    differ in such a prefix only, [table_exists] and
    [create_statistics_for_external_table] make the same calls, print the
    same lines and leave the same world. *)
Theorem schema_qualification_ignored config config' q :
  external_table config' = (q ++ "." ++ external_table config)%string ->
  workspace_name config' = workspace_name config ->
  database_name config' = database_name config ->
  (forall s w, table_exists s (external_table config') w
               = table_exists s (external_table config) w) /\
  (forall w, create_statistics_for_external_table config' w
             = create_statistics_for_external_table config w).
Proof.
  intros Ht Hw Hd.
  assert (Hu : PyStr.unqualified (external_table config')
               = PyStr.unqualified (external_table config))
    by (rewrite Ht; apply unqualified_app).
  split; intros.
  - unfold table_exists. rewrite Hu. reflexivity.
  - unfold create_statistics_for_external_table, get_jdbc_connection.
    rewrite Hu, (jdbc_url_fields _ _ Hw Hd). reflexivity.
Qed.

Lemma schema_qualification_ignored_witness :
  (forall s w, table_exists s (external_table staging_config) w
               = table_exists s (external_table sample_config) w) /\
  (forall w, create_statistics_for_external_table staging_config w
             = create_statistics_for_external_table sample_config w).
Proof.
  exact (schema_qualification_ignored sample_config staging_config "staging"
           eq_refl eq_refl eq_refl).
Defined.

(** ** A table of the same name in another schema *)

Transparent Engine.run_statement.

Lemma drop_missing_rejected t d :
  Engine.has_external_table (Engine.resolve t) (Engine.db_catalog d) = false ->
  Engine.run_statement (DropExternalTable t) d
  = inr (QueryError "external table does not exist").
Proof. intros H. simpl. rewrite H. reflexivity. Qed.

Opaque Engine.run_statement.

Lemma steps_on_homonym g config w :
  no_fault w ->
  pre_exists config w = true ->
  table_present config w = false ->
  steps_result g config w = Raise (QueryError "external table does not exist") /\
  w_db (steps_world g config w) = w_db w /\
  existsb is_cleanup (map fst (step_events g config w)) = false /\
  existsb is_create (map fst (step_events g config w)) = false /\
  In (RefreshError (QueryError "external table does not exist"))
    (new_lines w (steps_world g config w)).
Proof.
  intros Hnf Hpre Hpres.
  rewrite <- found_pre_exists in Hpre. unfold found in Hpre.
  pose proof (drop_missing_rejected (external_table config) (w_db w) Hpres) as Hd.
  unfold step_events, steps_result, steps_frame, steps_world.
  unfold_all. simpl.
  repeat (rewrite (Hnf _ _ eq_refl); simpl).
  destruct (Engine.run_query _ _) as [|row rows]; [discriminate Hpre|]. simpl.
  rewrite (Hnf _ _ eq_refl). simpl. rewrite Hd. simpl.
  observe. auto 10.
Qed.

(** X14. The existence check goes by the unqualified name and the drop by the
    name as configured.  When an external table of the unqualified name
    exists but the configured table does not (the name is taken in another
    schema only) and the collaborators raise nothing of their own, the
    refresh raises the engine's rejection of the drop: no storage is cleaned,
    nothing is created and the database is left as it was. *)
Theorem refresh_stops_at_table_of_other_schema g config w :
  no_fault w ->
  pre_exists config w = true ->
  table_present config w = false ->
  let R := refresh_external_table g config w in
  fst R = Raise (QueryError "external table does not exist") /\
  w_db (snd R) = w_db w /\
  existsb is_cleanup (refresh_calls g config w) = false /\
  existsb is_create (refresh_calls g config w) = false /\
  In (RefreshError (QueryError "external table does not exist")) (new_lines w (snd R)).
Proof.
  intros Hnf Hpre Hpres. cbv zeta.
  destruct (steps_on_homonym g config w Hnf Hpre Hpres) as (Hr & Hdb & Hcl & Hcr & Hl).
  pose proof (statistics_events_run g config w) as Hst.
  rewrite refresh_calls_phases, refresh_external_table_run.
  rewrite Hr in *. rewrite Hst. simpl. rewrite !app_nil_r. auto.
Qed.

Lemma refresh_stops_at_table_of_other_schema_witness :
  fst (refresh_external_table tidy_notebook sample_config staging_world)
  = Raise (QueryError "external table does not exist") /\
  w_db (snd (refresh_external_table tidy_notebook sample_config staging_world))
  = w_db staging_world.
Proof.
  destruct (refresh_stops_at_table_of_other_schema tidy_notebook sample_config
              staging_world (fun _ _ _ => eq_refl) eq_refl eq_refl) as (H1 & H2 & _).
  split; assumption.
Defined.

(** ** Obtaining a connection *)

(** X15. [get_jdbc_connection] asks for a token and then for a connection
    with that token as [accessToken]; it returns the handle of the connection,
    which is then open, or raises the error of the call that raised, and then
    no connection has been opened.  Either way it prints nothing and leaves
    the database as it was. *)
Theorem get_jdbc_connection_outcomes config w :
  let R := get_jdbc_connection config w in
  match fst R with
  | Ok h =>
      new_events w (snd R)
      = [(GetToken "DW", ReturnedText (w_token w));
         (GetConnection (jdbc_url config) (props_of w), ReturnedHandle h)] /\
      h = w_next_handle w /\
      w_connections (snd R) = h :: w_connections w
  | Raise e =>
      (new_events w (snd R) = [(GetToken "DW", Raised e)] \/
       new_events w (snd R)
       = [(GetToken "DW", ReturnedText (w_token w));
          (GetConnection (jdbc_url config) (props_of w), Raised e)]) /\
      w_connections (snd R) = w_connections w
  end /\
  new_lines w (snd R) = [] /\
  w_db (snd R) = w_db w /\
  w_statements (snd R) = w_statements w.
Proof.
  unfold get_jdbc_connection, getToken, getConnection, external, bind, props_of.
  simpl. fork; [|fork]; observe; auto 10.
Qed.

(** ** Cleaning the storage twice *)

Lemma with_files_twice d path :
  Engine.with_files
    (Engine.with_files d (filter (fun f => negb (Engine.under path f)) (Engine.db_files d)))
    (filter (fun f => negb (Engine.under path f))
       (filter (fun f => negb (Engine.under path f)) (Engine.db_files d)))
  = Engine.with_files d (filter (fun f => negb (Engine.under path f)) (Engine.db_files d)).
Proof. rewrite filter_filter_same. reflexivity. Qed.

(** X16. A second [delete_adls_path] of the same path right after one that
    returned finds nothing: when the storage call is not made to raise, it
    returns normally, prints that the path was not found or already deleted,
    and leaves the database as the first call left it. *)
Theorem delete_adls_path_twice path w :
  spares is_cleanup w ->
  let w1 := snd (delete_adls_path path w) in
  let R := delete_adls_path path w1 in
  fst (delete_adls_path path w) = Ok tt /\
  fst R = Ok tt /\
  new_lines w1 (snd R) = [PathNotFound path] /\
  w_db (snd R) = w_db w1.
Proof.
  intros Hsp. cbv zeta.
  unfold delete_adls_path, fs_rm, external, bind, print. simpl.
  rewrite (Hsp _ (FsRm path true) eq_refl). simpl.
  rewrite (remove_path_result path (w_db w)). simpl.
  destruct (existsb (Engine.under path) (Engine.db_files (w_db w))); simpl;
    rewrite (Hsp _ (FsRm path true) eq_refl); simpl;
    rewrite remove_path_result; simpl;
    rewrite nothing_left_under; simpl;
    observe; rewrite with_files_twice; auto.
Qed.

Lemma delete_adls_path_twice_witness :
  new_lines
    (snd (delete_adls_path (materialized_table_output_path sample_config)
            (world_with_table no_faults)))
    (snd (delete_adls_path (materialized_table_output_path sample_config)
            (snd (delete_adls_path (materialized_table_output_path sample_config)
                    (world_with_table no_faults)))))
  = [PathNotFound (materialized_table_output_path sample_config)].
Proof.
  destruct (delete_adls_path_twice (materialized_table_output_path sample_config)
              (world_with_table no_faults) (fun _ _ _ => eq_refl)) as (_ & _ & H & _).
  exact H.
Defined.

(** ** The notebook as its cells build it *)

Lemma refresh_ok_steps_ok g config w :
  fst (refresh_external_table g config w) = Ok tt -> steps_result g config w = Ok tt.
Proof.
  rewrite refresh_external_table_run.
  destruct (steps_result g config w) as [[]|e]; [reflexivity|].
  intros H. discriminate H.
Qed.

(** X17. When the configuration cell has bound [CONFIG] and [cetas_sql] and
    [CONFIG] has not been rebound since, the last cell, if it returns
    normally, leaves the table that [CONFIG] names as an external table of
    the catalog: the statement that the create step executes names the table
    that the existence check and the drop go by. *)
Theorem run_notebook_creates_configured_table cfg text w :
  let g := configuration_cell cfg text in
  fst (run_notebook g w) = Ok tt ->
  table_present cfg (snd (run_notebook g w)) = true.
Proof.
  cbv zeta. unfold run_notebook. cbn [CONFIG configuration_cell].
  intros Hok. apply refresh_ok_steps_ok in Hok.
  pose proof (steps_ok_table_created (configuration_cell cfg text) cfg w eq_refl Hok)
    as H.
  rewrite refresh_external_table_run, Hok.
  assert (Hst : statistics_only
                  (w_db (steps_world (configuration_cell cfg text) cfg w))
                  (w_db (snd (create_statistics_for_external_table cfg
                                (steps_world (configuration_cell cfg text) cfg w))))).
  { apply statistics_preserves;
      [apply statistics_only_refl|apply statistics_only_trans
      |apply create_statistics_only]. }
  destruct Hst as (E & _).
  unfold table_present, Engine.has_external_table, Engine.sys_external_tables in *.
  rewrite E. exact H.
Qed.

Lemma run_notebook_creates_configured_table_witness :
  table_present sample_config (snd (run_notebook tidy_notebook empty_world)) = true.
Proof.
  exact (run_notebook_creates_configured_table sample_config
           {| with_location := "/folder/materialized_table/";
              with_data_source := "data_source_name";
              with_file_format := "file_format_name";
              as_select := sample_select |} empty_world eq_refl).
Defined.
